(** * The Blair Crypto Report: dashboard renderer (src/app.js)

    A shallow embedding of the client-side script: the relative-time
    formatter, the headline list renderer, the self-measuring ticker, the
    market tables with the sentiment label, and the refresh cycle.

    Conventions of the embedding.
    - The page is a finite map from element ids to elements
      ([document.getElementById] is a map lookup); an element that the page
      does not have is an absent key.
    - Integral JS numbers (epoch milliseconds, pixel widths, minute counts)
      are [Z] or [N]; all values stay far below 2^53, where double
      arithmetic on integers is exact.  [NaN] is kept as a separate value.
    - Fractional JS numbers (prices, 24h changes) are given by the rationals
      they denote.  The sentiment mean is computed as the script computes
      it, in IEEE 754 binary64 with round to nearest, ties to even
      (the Standard Library's [SpecFloat]).
    - What the host supplies ([new Date] parsing, [toUpperCase],
      [toLocaleString], layout widths, the network) is an input. *)

From Equations Require Import Equations.
From stdpp Require Import gmap strings list pretty.
From Stdlib Require Import ZArith QArith Qround Qabs SpecFloat.

Local Open Scope Z_scope.
Local Set Warnings "-register-all".

(** ** JS numbers *)

(** An integral JS number or [NaN]: what [Date.prototype.getTime] and the
    arithmetic of [fmtTimeAgo] produce. *)
Inductive jsint : Type :=
| INaN
| IInt (z : Z).

(** [a - b] *)
Definition jsint_sub (a b : jsint) : jsint :=
  match a, b with
  | IInt x, IInt y => IInt (x - y)
  | _, _ => INaN
  end.

(** [Math.max(0, x)]: [NaN] if any argument is [NaN]. *)
Definition Math_max0 (x : jsint) : jsint :=
  match x with
  | INaN => INaN
  | IInt z => IInt (Z.max 0 z)
  end.

(** [Math.floor(x / k)] for a positive integer constant [k]. *)
Definition floor_div (x : jsint) (k : Z) : jsint :=
  match x with
  | INaN => INaN
  | IInt z => IInt (z / k)
  end.

(** [x < k]: every comparison with [NaN] is false. *)
Definition jsint_lt (x : jsint) (k : Z) : bool :=
  match x with
  | INaN => false
  | IInt z => z <? k
  end.

(** [String(x)], as used by [x + 'm ago']. *)
Definition jsint_str (x : jsint) : string :=
  match x with
  | INaN => "NaN"
  | IInt z => pretty z
  end.

(** A [Date] object is its time value. *)
Inductive Date : Type :=
| InvalidDate
| ValidDate (ms : Z).

Definition getTime (d : Date) : jsint :=
  match d with
  | InvalidDate => INaN
  | ValidDate ms => IInt ms
  end.

(** ** Binary64 numbers *)

Definition binary64_prec : Z := 53.
Definition binary64_emax : Z := 1024.

(** A fractional JS number, the result type of the sentiment mean: an
    IEEE 754 binary64 value. *)
Definition number : Type := spec_float.

Definition NaN : number := S754_nan.

(** [+0], the value of the literal [0]. *)
Definition pos_zero : number := S754_zero false.

(** [x + y] and [x / y], rounded to the nearest double, ties to even. *)
Definition number_add (x y : number) : number :=
  SFadd binary64_prec binary64_emax x y.

Definition number_div (x y : number) : number :=
  SFdiv binary64_prec binary64_emax x y.

(** The double nearest to the rational [q], ties to even: [q] itself when
    [q] is the value of a double, and what [JSON.parse] makes of a decimal
    literal otherwise.  The quotient of the numerator by the denominator is
    rounded once. *)
Definition to_double (q : Q) : number :=
  match Qnum q with
  | Z0 => pos_zero
  | Zpos n => number_div (S754_finite false n 0) (S754_finite false (Qden q) 0)
  | Zneg n => number_div (S754_finite true n 0) (S754_finite false (Qden q) 0)
  end.

(** An array length as a number. *)
Definition length_number (n : nat) : number :=
  binary_normalize binary64_prec binary64_emax (Z.of_nat n) 0 false.

(** [x / n] for an array length [n]. *)
Definition div_length (x : number) (n : nat) : number :=
  number_div x (length_number n).

(** [x > 0]: false on [NaN] and on both zeros. *)
Definition number_gt0 (x : number) : bool :=
  SFltb pos_zero x.

(** The rational that the finite double with sign [s], mantissa [m] and
    exponent [e] denotes. *)
Definition finite_value (s : bool) (m : positive) (e : Z) : Q :=
  match e with
  | Z0 => inject_Z (cond_Zopp s (Zpos m))
  | Zpos k => inject_Z (cond_Zopp s (Zpos m) * 2 ^ Zpos k)
  | Zneg k => Qmake (cond_Zopp s (Zpos m)) (2 ^ k)%positive
  end.

(** The value of the double nearest to [q], as a rational. *)
Definition double_value (q : Q) : Q :=
  match to_double q with
  | S754_finite s m e => finite_value s m e
  | _ => 0%Q
  end.

Definition two_digits (k : Z) : string :=
  if k <? 10 then "0" +:+ pretty k else pretty k.

(** [q.toFixed(2)] for a finite [q] (below 10^21 in magnitude, the range of
    the fixed notation): the integer [n] nearest to [|q| * 100], the larger
    one on a tie, printed with two fraction digits, and a minus sign when
    [q < 0]. *)
Definition toFixed2 (q : Q) : string :=
  let n := Qfloor (Qabs q * 100 + (1 # 2)) in
  let digits := pretty (n / 100) +:+ "." +:+ two_digits (n mod 100) in
  if Qle_bool 0 q then digits else "-" +:+ digits.

(** [x.toFixed(2)]; the finite case prints the exact value of the double
    and is the fixed notation, which [toFixed] uses below 10^21. *)
Definition number_toFixed2 (x : number) : string :=
  match x with
  | S754_zero _ => toFixed2 0
  | S754_finite s m e => toFixed2 (finite_value s m e)
  | S754_infinity negative => if negative then "-Infinity" else "Infinity"
  | S754_nan => "NaN"
  end.

(** [x] is printed by [number_toFixed2] as [toFixed(2)] prints it: every
    value except the finite ones of magnitude 10^21 and more, for which
    [toFixed] switches to the exponent notation. *)
Definition fixed_notation (x : number) : bool :=
  match x with
  | S754_finite s m e => negb (Qle_bool (inject_Z (10 ^ 21)) (Qabs (finite_value s m e)))
  | _ => true
  end.

(** [a || b] on pixel widths: [0] is falsy. *)
Definition or_else (a b : N) : N :=
  if (a =? 0)%N then b else a.

(** ** The page *)

(** A DOM subtree built by the renderers. *)
Inductive node : Type :=
| Text (data : string)
| Elem (tag : string) (attrs : list (string * string)) (children : list node).

(** An element of the page that the script looks up: its child nodes and
    its inline style properties. *)
Record element : Type := mkElement {
  children : list node;
  style : gmap string string
}.

(** The page: elements by id, and the [clientWidth] of the first element
    matching [.ticker-wrap] when there is one. *)
Record document : Type := mkDocument {
  elements : gmap string element;
  ticker_wrap : option N
}.

Definition getElementById (id : string) (doc : document) : option element :=
  elements doc !! id.

Definition set_element (id : string) (el : element) (doc : document) : document :=
  {| elements := <[id := el]> (elements doc); ticker_wrap := ticker_wrap doc |}.

(** [el.innerHTML = ''] *)
Definition clear_children (el : element) : element :=
  {| children := []; style := style el |}.

(** [el.appendChild(n)] *)
Definition appendChild (el : element) (n : node) : element :=
  {| children := children el ++ [n]; style := style el |}.

(** The child list that [textContent = s] leaves: no text node for the
    empty string. *)
Definition text (s : string) : list node :=
  if decide (s = "") then [] else [Text s].

(** [el.textContent = s] *)
Definition set_textContent (el : element) (s : string) : element :=
  {| children := text s; style := style el |}.

(** [el.style.setProperty(k, v)] *)
Definition setProperty (el : element) (k v : string) : element :=
  {| children := children el; style := <[k := v]> (style el) |}.

(** ** The feeds *)

Record HeadlineItem : Type := mkHeadline {
  title : string;
  link : string;
  source : option string;
  published_at : string
}.

Record HeadlineFeed : Type := mkHeadlineFeed {
  x_breaking : option (list HeadlineItem);
  breaking : option (list HeadlineItem);
  day : option (list HeadlineItem);
  week : option (list HeadlineItem);
  month : option (list HeadlineItem);
  generated_at : option string
}.

Record PriceItem : Type := mkPrice {
  symbol : option string;
  price : option Q;
  change24h : option Q;
  rank : option N
}.

(** The parsed [data/prices.json]: a bare array, or an object with the
    full list and the two precomputed subsequences. *)
Inductive PriceFeed : Type :=
| PriceArray (items : list PriceItem)
| PriceObject (prices gainers losers : option (list PriceItem)).

(** [prices.prices], [prices.gainers], [prices.losers]: [undefined] on an
    array. *)
Definition feed_prices (f : PriceFeed) : option (list PriceItem) :=
  match f with PriceArray _ => None | PriceObject p _ _ => p end.

Definition feed_gainers (f : PriceFeed) : option (list PriceItem) :=
  match f with PriceArray _ => None | PriceObject _ g _ => g end.

Definition feed_losers (f : PriceFeed) : option (list PriceItem) :=
  match f with PriceArray _ => None | PriceObject _ _ l => l end.

(** [Array.isArray(prices) ? prices : []] *)
Definition array_or_empty (f : PriceFeed) : list PriceItem :=
  match f with PriceArray items => items | PriceObject _ _ _ => [] end.

(** ** The ticker's cloning loop (app.js 56-62) *)

Record loop_state : Type := mkLoop {
  kids : list node;      (* children of the ticker track *)
  totalW : N
}.

(** One iteration: clone the run, append it, add its rendered width, or
    the container width when that is zero.  [scrollWidth k] is the width
    the layout reports for the clone appended as number [k]. *)
Definition loop_body (containerW : N) (scrollWidth : nat -> N) (oneRun : node)
    (st : loop_state) : loop_state :=
  {| kids := kids st ++ [oneRun];
     totalW := totalW st + or_else (scrollWidth (length (kids st))) containerW |}.

Definition gap (containerW : N) (st : loop_state) : nat :=
  N.to_nat (containerW * 2 - totalW st).

(** [while (totalW < containerW * 2) { ... }] *)
Equations? clone_loop (containerW : N) (scrollWidth : nat -> N) (oneRun : node)
    (st : loop_state) : loop_state by wf (gap containerW st) lt :=
clone_loop containerW scrollWidth oneRun st
    with decide (totalW st < containerW * 2)%N := {
  | left _ => clone_loop containerW scrollWidth oneRun
                (loop_body containerW scrollWidth oneRun st)
  | right _ => st }.
Proof.
  unfold gap, loop_body, or_else; simpl.
  destruct (N.eqb_spec (scrollWidth (length (kids st))) 0); lia.
Qed.

(** The same loop, run for at most [fuel] iterations: [None] when the
    guard still holds after them. *)
Fixpoint clone_loop_fuel (fuel : nat) (containerW : N) (scrollWidth : nat -> N)
    (oneRun : node) (st : loop_state) : option loop_state :=
  if decide (totalW st < containerW * 2)%N then
    match fuel with
    | O => None
    | S fuel' =>
        clone_loop_fuel fuel' containerW scrollWidth oneRun
          (loop_body containerW scrollWidth oneRun st)
    end
  else Some st.

(** ** Failures and the refresh cycle's effects *)

Inductive exn : Type :=
| FetchFailed                    (* fetch rejected: transport error *)
| LoadError (path : string)      (* new Error('Failed to load ' + path) *)
| JSONSyntaxError                (* res.json() rejected *)
| TypeError (msg : string).

(** What one [fetch] of a feed can come back with; [body] is [None] when
    the payload is not well-formed JSON. *)
Inductive fetched (A : Type) : Type :=
| NetworkError
| Response (ok : bool) (body : option A).
Arguments NetworkError {A}.
Arguments Response {A} ok body.

(** The fetch came back OK with well-formed JSON. *)
Definition fetch_ok {A} (r : fetched A) : bool :=
  match r with
  | Response true (Some _) => true
  | _ => false
  end.

Record world : Type := mkWorld {
  page : document;
  console : list exn             (* arguments of console.error, oldest first *)
}.

(** A computation on the page that may throw. *)
Definition Eff (A : Type) : Type := world -> (exn + A) * world.

Definition ret {A} (a : A) : Eff A := fun w => (inr a, w).

Definition throw {A} (e : exn) : Eff A := fun w => (inl e, w).

Definition bind {A B} (m : Eff A) (k : A -> Eff B) : Eff B :=
  fun w =>
    match m w with
    | (inl e, w') => (inl e, w')
    | (inr a, w') => k a w'
    end.

(** [try { m } catch (e) { h(e) }] *)
Definition try_catch {A} (m : Eff A) (h : exn -> Eff A) : Eff A :=
  fun w =>
    match m w with
    | (inl e, w') => h e w'
    | (inr a, w') => (inr a, w')
    end.

(** A renderer that cannot throw. *)
Definition render (f : document -> document) : Eff unit :=
  fun w => (inr tt, {| page := f (page w); console := console w |}).

(** [console.error('Refresh failed:', e)] *)
Definition console_error (e : exn) : Eff unit :=
  fun w => (inr tt, {| page := page w; console := console w ++ [e] |}).

(** Awaiting a settled promise: resume with its value or throw its reason. *)
Definition await {A} (p : exn + A) : Eff A :=
  match p with
  | inl e => throw e
  | inr a => ret a
  end.

#[global] Instance eff_ret : MRet Eff := @ret.
#[global] Instance eff_bind : MBind Eff := fun A B k m => bind m k.

(** [loadJSON(path)] once the fetch has settled (app.js 5-9). *)
Definition loadJSON {A} (path : string) (r : fetched A) : exn + A :=
  match r with
  | NetworkError => inl FetchFailed
  | Response false _ => inl (LoadError path)
  | Response true None => inl JSONSyntaxError
  | Response true (Some v) => inr v
  end.

(** [Promise.all([p1, p2])]: fulfilled with both values, or rejected with
    the reason of the promise that rejected first; [second_first] says
    that the second promise settled before the first. *)
Definition Promise_all {A B} (second_first : bool) (p1 : exn + A) (p2 : exn + B)
  : exn + (A * B) :=
  match p1, p2 with
  | inr a, inr b => inr (a, b)
  | inl e, inr _ => inl e
  | inr _, inl e => inl e
  | inl e1, inl e2 => inl (if second_first then e2 else e1)
  end.

(** What one refresh cycle gets from outside: the two settled fetches, the
    order in which they settled, the [Date.now()] reading of the k-th
    [fmtTimeAgo] call of each list, and the layout's clone widths. *)
Record cycle_env : Type := mkEnv {
  headlines_fetch : fetched HeadlineFeed;
  prices_fetch : fetched PriceFeed;
  second_first : bool;
  clock : string -> nat -> Z;
  scrollWidth : nat -> N
}.

(** ** A small host, to run the script on concrete pages *)

Definition ascii_upper (c : Ascii.ascii) : Ascii.ascii :=
  let n := Ascii.nat_of_ascii c in
  if ((97 <=? n)%nat && (n <=? 122)%nat)%bool then Ascii.ascii_of_nat (n - 32) else c.

Fixpoint sample_toUpperCase (s : string) : string :=
  match s with
  | EmptyString => EmptyString
  | String c s' => String (ascii_upper c) (sample_toUpperCase s')
  end.

(** A [Date] constructor that knows two ISO timestamps. *)
Definition sample_new_Date (s : string) : Date :=
  if decide (s = "1970-01-01T00:00:00Z") then ValidDate 0
  else if decide (s = "2024-01-01T00:00:00Z") then ValidDate 1704067200000
  else InvalidDate.

Definition sample_Date_toLocaleString (d : Date) : string :=
  match d with
  | InvalidDate => "Invalid Date"
  | ValidDate ms => pretty ms
  end.

(** A locale that prints two fraction digits and no grouping. *)
Definition sample_toLocaleString (q : Q) : string := toFixed2 q.

(** A page with every element the two scripts look up, a 500px ticker
    container, and stale content in the ticker and one headline list. *)
Definition sample_tick : element := mkElement [Text "stale"] ∅.

Definition sample_page : document :=
  {| elements :=
       {[ "ticker" := sample_tick;
          "breaking" := mkElement [Text "old headline"] ∅;
          "market-body" := mkElement [] ∅;
          "gainers-body" := mkElement [] ∅;
          "losers-body" := mkElement [] ∅;
          "sentiment-indicator" := mkElement [] ∅;
          "lastUpdated" := mkElement [] ∅ ]};
     ticker_wrap := Some 500%N |}.

Definition sample_world : world := mkWorld sample_page [].

Definition btc : PriceItem := mkPrice (Some "btc") (Some 65000%Q) (Some 1%Q) (Some 1%N).
Definition eth : PriceItem := mkPrice (Some "eth") None (Some 3%Q) None.
Definition ada : PriceItem := mkPrice (Some "ada") (Some (1 # 2)%Q) (Some (-1)%Q) None.
Definition sol : PriceItem := mkPrice (Some "sol") (Some 150%Q) (Some (1 # 2)%Q) None.

Definition sample_headline : HeadlineItem :=
  mkHeadline "Markets open" "https://example.org/a" (Some "Wire") "2024-01-01T00:00:00Z".

Definition sample_headlines : HeadlineFeed :=
  mkHeadlineFeed None (Some [sample_headline]) None None None
    (Some "2024-01-01T00:00:00Z").

(** A cycle whose headline fetch comes back with a non-OK status. *)
Definition failing_env : cycle_env :=
  {| headlines_fetch := Response false None;
     prices_fetch := Response true (Some (PriceArray [btc; eth]));
     second_first := false;
     clock := fun _ _ => 1704067261000;
     scrollWidth := fun _ => 300%N |}.

(** The same cycle with both fetches OK. *)
Definition working_env : cycle_env :=
  {| headlines_fetch := Response true (Some sample_headlines);
     prices_fetch := Response true (Some (PriceArray [btc; eth]));
     second_first := false;
     clock := fun _ _ => 1704067261000;
     scrollWidth := fun _ => 300%N |}.

(** Two items whose changes are the doubles of -1.88 and 10.17, and three
    whose changes are the doubles of -5, 0.1 and 4.9. *)
Definition dipped : PriceItem :=
  mkPrice (Some "dip") None (Some (double_value (-188 # 100))) None.
Definition rallied : PriceItem :=
  mkPrice (Some "ral") None (Some (double_value (1017 # 100))) None.
Definition minus5 : PriceItem :=
  mkPrice (Some "mfv") None (Some (double_value (-5))) None.
Definition tenth : PriceItem :=
  mkPrice (Some "tth") None (Some (double_value (1 # 10))) None.
Definition almost5 : PriceItem :=
  mkPrice (Some "alf") None (Some (double_value (49 # 10))) None.

(** The flat-table cycle receiving the object-shaped feed. *)
Definition object_env : cycle_env :=
  {| headlines_fetch := Response true (Some sample_headlines);
     prices_fetch := Response true (Some (PriceObject (Some [btc; eth]) (Some [ada]) None));
     second_first := false;
     clock := fun _ _ => 1704067261000;
     scrollWidth := fun _ => 300%N |}.

(** A page with one headline list and nothing else: no ticker, no tables. *)
Definition bare_page : document :=
  {| elements := {[ "breaking" := mkElement [Text "old headline"] ∅ ]};
     ticker_wrap := None |}.

(** A layout that reports 700px for the first clone and no width for the
    later ones. *)
Definition uneven_widths (k : nat) : N :=
  match k with
  | O => 700%N
  | S _ => 0%N
  end.

(** ** The script *)

Section Dashboard.

(** The host: [new Date(s)], [Date.prototype.toLocaleString],
    [String.prototype.toUpperCase], [Number.prototype.toLocaleString]. *)
Variable new_Date : string -> Date.
Variable Date_toLocaleString : Date -> string.
Variable toUpperCase : string -> string.
Variable toLocaleString : Q -> string.

(** [fmtTimeAgo] (app.js 10-22); [now] is the reading of [Date.now()].
    Nothing in the [try] block throws on a string, so the [catch] arm is
    never entered and has no counterpart here. *)
Definition fmtTimeAgo (now : Z) (dateStr : string) : string :=
  let d := new_Date dateStr in
  let delta := Math_max0 (jsint_sub (IInt now) (getTime d)) in
  let mins := floor_div delta 60000 in
  if jsint_lt mins 1 then "just now"
  else if jsint_lt mins 60 then jsint_str mins +:+ "m ago"
  else
    let hrs := floor_div mins 60 in
    if jsint_lt hrs 24 then jsint_str hrs +:+ "h ago"
    else
      let days := floor_div hrs 24 in
      jsint_str days +:+ "d ago".

(** [it.source ? ` • ${it.source}` : ''] *)
Definition source_suffix (it : HeadlineItem) : string :=
  match source it with
  | Some s => if decide (s = "") then "" else " • " +:+ s
  | None => ""
  end.

(** The [li] built by one iteration of [renderList]'s loop. *)
Definition list_entry (now : Z) (it : HeadlineItem) : node :=
  let a := Elem "a" [("href", link it); ("target", "_blank"); ("rel", "noopener")]
             (text (title it)) in
  let meta := Elem "span" [("class", "meta")]
                (text (fmtTimeAgo now (published_at it) +:+ source_suffix it)) in
  Elem "li" [] [a; meta].

(** [renderList] (app.js 23-39); [now_at k] is the clock reading of the
    k-th entry's [fmtTimeAgo] call. *)
Definition renderList (now_at : nat -> Z) (id : string)
    (items : option (list HeadlineItem)) (doc : document) : document :=
  match getElementById id doc with
  | None => doc
  | Some el =>
      let el' :=
        foldl (fun acc it =>
                 appendChild acc (list_entry (now_at (length (children acc))) it))
              (clear_children el) (default [] items) in
      set_element id el' doc
  end.

(** [`$${Number(p.price).toLocaleString()}`], or [''] when [p.price] is
    [undefined]. *)
Definition price_text (p : PriceItem) : string :=
  match price p with
  | Some q => "$" +:+ toLocaleString q
  | None => ""
  end.

(** The text of one ticker label (app.js 50-53). *)
Definition ticker_label (p : PriceItem) : string :=
  let sym := toUpperCase (default "" (symbol p)) in
  let rank :=
    match rank p with
    | Some r => if (r =? 0)%N then "" else "#" +:+ pretty r
    | None => ""
    end in
  rank +:+ " " +:+ sym +:+ " " +:+ price_text p.

(** [oneRun] (app.js 46-55) *)
Definition build_run (prices : list PriceItem) : node :=
  Elem "div" [("class", "ticker-track")]
    (foldl (fun spans p => spans ++ [Elem "span" [] (text (ticker_label p))])
           [] prices).

(** [setupTicker] (app.js 40-66) *)
Definition setupTicker (scrollWidth : nat -> N) (prices : list PriceItem)
    (doc : document) : document :=
  match ticker_wrap doc, getElementById "ticker" doc with
  | Some clientWidth, Some tick =>
      let tick := clear_children tick in
      match prices with
      | [] => set_element "ticker" tick doc
      | _ :: _ =>
          let oneRun := build_run prices in
          let containerW := or_else clientWidth 800 in
          let st := clone_loop containerW scrollWidth oneRun
                      {| kids := children tick; totalW := 0 |} in
          let duration := N.max 20 ((totalW st + 50) / 100) in
          set_element "ticker"
            (setProperty {| children := kids st; style := style tick |}
               "--ticker-duration" (pretty duration +:+ "s"))
            doc
      end
  | _, _ => doc
  end.

(** One table row (app.js 72-86, 210-224, 230-244); [cls] is the class the
    change cell gets for a numeric change. *)
Definition market_row (cls : Q -> string) (c : PriceItem) : node :=
  let nameTd := Elem "td" [] (text (toUpperCase (default "" (symbol c)))) in
  let priceTd := Elem "td" [] (text (price_text c)) in
  let changeTd :=
    match change24h c with
    | Some change => Elem "td" [("class", cls change)] (text (toFixed2 change +:+ "%"))
    | None => Elem "td" [] (text "—")
    end in
  Elem "tr" [] [nameTd; priceTd; changeTd].

(** [change >= 0 ? 'positive' : 'negative'] *)
Definition sign_class (change : Q) : string :=
  if Qle_bool 0 change then "positive" else "negative".

(** Clear a table body and append one row per item. *)
Definition fill_rows (cls : Q -> string) (tbody : element) (items : list PriceItem)
  : element :=
  foldl (fun acc c => appendChild acc (market_row cls c)) (clear_children tbody) items.

(** [renderMarkets] (app.js 67-88) *)
Definition renderMarkets (prices : list PriceItem) (doc : document) : document :=
  match getElementById "market-body" doc with
  | None => doc
  | Some tbody => set_element "market-body" (fill_rows sign_class tbody (take 50 prices)) doc
  end.

(** [p.change24h || 0]: a missing change, a zero of either sign and [NaN]
    are falsy. *)
Definition change_or_zero (p : PriceItem) : number :=
  match change24h p with
  | Some change =>
      match to_double change with
      | S754_zero _ | S754_nan => pos_zero
      | x => x
      end
  | None => pos_zero
  end.

(** [prices.prices.reduce((sum, p) => sum + (p.change24h || 0), 0) /
    prices.prices.length] (app.js 249) *)
Definition avgChange (ps : list PriceItem) : number :=
  div_length (foldl (fun sum p => number_add sum (change_or_zero p)) pos_zero ps)
    (length ps).

(** The text published in the sentiment element (app.js 250-251). *)
Definition sentiment_text (avg : number) : string :=
  let sentiment := if number_gt0 avg then "Bullish" else "Bearish" in
  "Market Sentiment: " +:+ sentiment +:+ " (Avg 24h Change: "
    +:+ number_toFixed2 avg +:+ "%)".

(** [renderGainersLosers] (app.js 201-253).  Reading [prices.prices] off a
    feed that has none throws, after both tables have been rendered. *)
Definition renderGainersLosers (feed : PriceFeed) : Eff unit :=
  fun w =>
    let doc := page w in
    let sentimentEl := getElementById "sentiment-indicator" doc in
    match getElementById "gainers-body" doc, getElementById "losers-body" doc with
    | Some gainersBody, Some losersBody =>
        (render (set_element "gainers-body"
                   (fill_rows (fun _ => "positive") gainersBody
                      (take 15 (default [] (feed_gainers feed)))));;
         render (set_element "losers-body"
                   (fill_rows (fun _ => "negative") losersBody
                      (take 15 (default [] (feed_losers feed)))));;
         match sentimentEl with
         | Some el =>
             match feed_prices feed with
             | Some ps =>
                 render (set_element "sentiment-indicator"
                           (set_textContent el (sentiment_text (avgChange ps))))
             | None => throw (TypeError "prices.prices is undefined")
             end
         | None => ret tt
         end) w
    | _, _ => (inr tt, w)
    end.

(** [setLastUpdated] (app.js 89-95) *)
Definition setLastUpdated (iso : option string) (doc : document) : document :=
  match getElementById "lastUpdated" doc, iso with
  | Some el, Some s =>
      if decide (s = "") then doc
      else set_element "lastUpdated"
             (set_textContent el ("Last updated " +:+ Date_toLocaleString (new_Date s)))
             doc
  | _, _ => doc
  end.

(** The five headline lists and the last renderers of a cycle. *)
Definition render_headlines (env : cycle_env) (headlines : HeadlineFeed) : Eff unit :=
  render (renderList (clock env "x_breaking") "x_breaking"
            (Some (default [] (x_breaking headlines))));;
  render (renderList (clock env "breaking") "breaking"
            (Some (default [] (breaking headlines))));;
  render (renderList (clock env "day") "day" (Some (default [] (day headlines))));;
  render (renderList (clock env "week") "week" (Some (default [] (week headlines))));;
  render (renderList (clock env "month") "month" (Some (default [] (month headlines)))).

(** Both fetches, joined (app.js 98-101). *)
Definition load_feeds (env : cycle_env) : exn + (HeadlineFeed * PriceFeed) :=
  Promise_all (second_first env)
    (loadJSON "data/headlines.json" (headlines_fetch env))
    (loadJSON "data/prices.json" (prices_fetch env)).

(** The [try] block of [refreshAll] in the flat-table script (app.js 98-109). *)
Definition refresh_body (env : cycle_env) : Eff unit :=
  feeds ← await (load_feeds env);
  let '(headlines, prices) := feeds in
  render_headlines env headlines;;
  render (setupTicker (scrollWidth env) (array_or_empty prices));;
  render (renderMarkets (array_or_empty prices));;
  render (setLastUpdated (generated_at headlines)).

(** [refreshAll] of the flat-table script (app.js 96-113) *)
Definition refreshAll (env : cycle_env) : Eff unit :=
  try_catch (refresh_body env) console_error.

(** The [try] block of [refreshAll] in the gainers/losers script
    (app.js 263-274). *)
Definition refresh_body_split (env : cycle_env) : Eff unit :=
  feeds ← await (load_feeds env);
  let '(headlines, prices) := feeds in
  render_headlines env headlines;;
  render (setupTicker (scrollWidth env) (default [] (feed_prices prices)));;
  renderGainersLosers prices;;
  render (setLastUpdated (generated_at headlines)).

(** [refreshAll] of the gainers/losers script (app.js 261-278) *)
Definition refreshAll_split (env : cycle_env) : Eff unit :=
  try_catch (refresh_body_split env) console_error.

(** The [resize] and [load] listeners of the flat-table script
    (app.js 120-132): reload the prices and rebuild the ticker; any
    failure is swallowed by the empty [catch]. *)
Definition on_resize (r : fetched PriceFeed) (scrollWidth : nat -> N) : Eff unit :=
  try_catch
    (prices ← await (loadJSON "data/prices.json" r);
     render (setupTicker scrollWidth (array_or_empty prices)))
    (fun _ => ret tt).

(** The [resize] listener of the gainers/losers script (app.js 285-290). *)
Definition on_resize_split (r : fetched PriceFeed) (scrollWidth : nat -> N) : Eff unit :=
  try_catch
    (prices ← await (loadJSON "data/prices.json" r);
     render (setupTicker scrollWidth (default [] (feed_prices prices))))
    (fun _ => ret tt).

(** The element ids each script's refresh cycle writes to. *)
Definition headline_regions : list string :=
  ["x_breaking"; "breaking"; "day"; "week"; "month"].

Definition flat_regions : list string :=
  headline_regions ++ ["ticker"; "market-body"; "lastUpdated"].

Definition split_regions : list string :=
  headline_regions ++
  ["ticker"; "gainers-body"; "losers-body"; "sentiment-indicator"; "lastUpdated"].

(** Two pages agree outside the ids in [ids], and on the ticker container. *)
Definition same_outside (ids : list string) (doc doc' : document) : Prop :=
  ticker_wrap doc' = ticker_wrap doc /\
  forall id : string, id ∉ ids -> getElementById id doc' = getElementById id doc.

(** A computation that writes to the page only at the ids in [ids] and
    leaves the console alone, whether it returns or throws. *)
Definition quiet {A} (ids : list string) (m : Eff A) : Prop :=
  forall w : world,
    same_outside ids (page w) (page (snd (m w))) /\ console (snd (m w)) = console w.

(** [doc'] has the same elements as [doc], with the same inline styles
    except possibly on the ticker track, and the same ticker container. *)
Definition same_shape (doc doc' : document) : Prop :=
  ticker_wrap doc' = ticker_wrap doc /\
  forall id : string,
    (is_Some (getElementById id doc') <-> is_Some (getElementById id doc)) /\
    (id <> "ticker" ->
     style <$> getElementById id doc' = style <$> getElementById id doc).

(** A computation whose page after is related by [R] to its page before,
    whether it returns or throws. *)
Definition keeps {A} (R : document -> document -> Prop) (m : Eff A) : Prop :=
  forall w : world, R (page w) (page (snd (m w))).

(** ** The specification's view *)

(** The four tiers of the relative-age label. *)
Inductive age_label : Type :=
| JustNow
| MinutesAgo (n : Z)
| HoursAgo (n : Z)
| DaysAgo (n : Z).

Definition tier (l : age_label) : nat :=
  match l with
  | JustNow => 0
  | MinutesAgo _ => 1
  | HoursAgo _ => 2
  | DaysAgo _ => 3
  end.

Definition show_age (l : age_label) : string :=
  match l with
  | JustNow => "just now"
  | MinutesAgo n => pretty n +:+ "m ago"
  | HoursAgo n => pretty n +:+ "h ago"
  | DaysAgo n => pretty n +:+ "d ago"
  end.

(** The tiers as the specification words them, on the elapsed
    milliseconds: below 1 minute, below 60 minutes, below 24 hours,
    otherwise days. *)
Definition age_of_elapsed (elapsed : Z) : age_label :=
  let mins := elapsed / 60000 in
  if mins <? 1 then JustNow
  else if mins <? 60 then MinutesAgo mins
  else if mins / 60 <? 24 then HoursAgo (mins / 60)
  else DaysAgo (mins / 60 / 24).

(** The arithmetic mean of the 24h changes, a missing change counting as 0. *)
Fixpoint sum_changes (ps : list PriceItem) : Q :=
  match ps with
  | [] => 0%Q
  | p :: ps' => (default 0%Q (change24h p) + sum_changes ps')%Q
  end.

Definition mean_change (ps : list PriceItem) : Q :=
  (sum_changes ps / inject_Z (Z.of_nat (length ps)))%Q.

(** ** The cloning loop *)

Lemma clone_loop_eq containerW scrollWidth oneRun st :
  clone_loop containerW scrollWidth oneRun st =
  if decide (totalW st < containerW * 2)%N
  then clone_loop containerW scrollWidth oneRun
         (loop_body containerW scrollWidth oneRun st)
  else st.
Proof.
  rewrite clone_loop_equation_1.
  destruct (decide (totalW st < containerW * 2)%N); reflexivity.
Qed.

Lemma or_else_pos a b : (0 < b)%N -> (0 < or_else a b)%N.
Proof.
  unfold or_else. destruct (N.eqb_spec a 0); lia.
Qed.

Lemma container_width_pos clientWidth : (0 < or_else clientWidth 800)%N.
Proof. apply or_else_pos. lia. Qed.

Lemma loop_body_grows containerW scrollWidth oneRun st :
  (0 < containerW)%N ->
  (totalW st < totalW (loop_body containerW scrollWidth oneRun st))%N.
Proof.
  intros Hpos. unfold loop_body; simpl.
  pose proof (or_else_pos (scrollWidth (length (kids st))) containerW Hpos). lia.
Qed.

(** With fuel for the remaining gap the bounded loop finishes, and agrees
    with [clone_loop]. *)
Lemma clone_loop_fuel_enough containerW scrollWidth oneRun fuel :
  forall st,
    (0 < containerW)%N ->
    (gap containerW st <= fuel)%nat ->
    clone_loop_fuel fuel containerW scrollWidth oneRun st =
    Some (clone_loop containerW scrollWidth oneRun st).
Proof.
  induction fuel as [|fuel IH]; intros st Hpos Hgap;
    rewrite clone_loop_eq; simpl;
    destruct (decide (totalW st < containerW * 2)%N) as [Hlt|Hge]; try reflexivity.
  - unfold gap in Hgap. lia.
  - apply IH; [assumption|].
    pose proof (loop_body_grows containerW scrollWidth oneRun st Hpos) as Hgrow.
    unfold gap in *. lia.
Qed.

Lemma clone_loop_exits containerW scrollWidth oneRun fuel :
  forall st final,
    clone_loop_fuel fuel containerW scrollWidth oneRun st = Some final ->
    (containerW * 2 <= totalW final)%N.
Proof.
  induction fuel as [|fuel IH]; intros st final; simpl;
    destruct (decide (totalW st < containerW * 2)%N) as [Hlt|Hge];
    intros Hrun; try discriminate.
  - injection Hrun as <-. lia.
  - eapply IH; eassumption.
  - injection Hrun as <-. lia.
Qed.

(** Clones of one constant positive width [w]: the loop appends [j]
    copies, where [j] is the first count that reaches the bound. *)
Lemma clone_loop_constant_width containerW w oneRun (g : nat) :
  forall st,
    (0 < w)%N ->
    (gap containerW st <= g)%nat ->
    exists j : nat,
      clone_loop containerW (fun _ => w) oneRun st =
        {| kids := kids st ++ replicate j oneRun;
           totalW := totalW st + N.of_nat j * w |} /\
      (containerW * 2 <= totalW st + N.of_nat j * w)%N /\
      (forall i : nat, (i < j)%nat -> (totalW st + N.of_nat i * w < containerW * 2)%N).
Proof.
  induction g as [|g IH]; intros st Hw Hgap; rewrite clone_loop_eq;
    destruct (decide (totalW st < containerW * 2)%N) as [Hlt|Hge].
  - unfold gap in Hgap. lia.
  - exists O. simpl. rewrite app_nil_r, N.add_0_r. destruct st; simpl in *.
    split; [reflexivity | split; [lia | intros i Hi; lia]].
  - assert (Hstep : totalW (loop_body containerW (fun _ => w) oneRun st) = (totalW st + w)%N).
    { unfold loop_body, or_else; simpl. destruct (N.eqb_spec w 0); [lia | reflexivity]. }
    destruct (IH (loop_body containerW (fun _ => w) oneRun st) Hw) as (j & Hrun & Hbound & Hmin).
    { unfold gap in *. rewrite Hstep. lia. }
    exists (S j). rewrite Hrun, Hstep. simpl kids.
    repeat split.
    + f_equal; [| lia]. rewrite <- app_assoc. reflexivity.
    + lia.
    + intros i Hi. destruct i as [|i]; [lia |].
      specialize (Hmin i ltac:(lia)). rewrite Hstep in Hmin. lia.
  - exists O. simpl. rewrite app_nil_r, N.add_0_r. destruct st; simpl in *.
    split; [reflexivity | split; [lia | intros i Hi; lia]].
Qed.

Lemma getElementById_set_element id el doc :
  getElementById id (set_element id el doc) = Some el.
Proof. unfold getElementById, set_element; simpl. apply lookup_insert_eq. Qed.

Lemma getElementById_set_element_ne id id' el doc :
  id <> id' -> getElementById id' (set_element id el doc) = getElementById id' doc.
Proof.
  intros Hne. unfold getElementById, set_element; simpl.
  apply lookup_insert_ne. assumption.
Qed.

(** On a non-empty list with both anchors present, the ticker track ends
    up with what the loop built from an empty track. *)
Lemma setupTicker_runs_loop (doc : document) (tick : element) (clientWidth : N)
    (scrollWidth : nat -> N) (prices : list PriceItem) :
  prices <> [] ->
  ticker_wrap doc = Some clientWidth ->
  getElementById "ticker" doc = Some tick ->
  let final := clone_loop (or_else clientWidth 800) scrollWidth (build_run prices)
                 {| kids := []; totalW := 0 |} in
  getElementById "ticker" (setupTicker scrollWidth prices doc) =
    Some (setProperty {| children := kids final; style := style tick |}
            "--ticker-duration"
            (pretty (N.max 20 ((totalW final + 50) / 100)) +:+ "s")).
Proof.
  intros Hne Hwrap Htick final. unfold setupTicker. rewrite Hwrap, Htick.
  destruct prices as [|p prices']; [congruence |].
  rewrite getElementById_set_element. reflexivity.
Qed.

(** C9: the clone-appending loop of [setupTicker] terminates.  Every
    iteration adds a positive amount to the accumulated width (the clone's
    rendered width, or the container width when that is zero, the
    container width being 800 when unmeasured), and the loop leaves after
    at most [2 * containerW] iterations with the bound reached. *)
Theorem clone_loop_terminates (clientWidth : N) (scrollWidth : nat -> N)
    (prices : list PriceItem) :
  let containerW := or_else clientWidth 800 in
  let oneRun := build_run prices in
  let init := {| kids := []; totalW := 0 |} in
  (forall st : loop_state,
     totalW (loop_body containerW scrollWidth oneRun st) =
       (totalW st + or_else (scrollWidth (length (kids st))) containerW)%N /\
     (0 < or_else (scrollWidth (length (kids st))) containerW)%N) /\
  exists (n : nat) (final : loop_state),
    (n <= N.to_nat (containerW * 2))%nat /\
    clone_loop_fuel n containerW scrollWidth oneRun init = Some final /\
    clone_loop containerW scrollWidth oneRun init = final /\
    (containerW * 2 <= totalW final)%N.
Proof.
  intros containerW oneRun init.
  pose proof (container_width_pos clientWidth) as Hpos. fold containerW in Hpos.
  split.
  - intros st. split; [reflexivity | apply or_else_pos; assumption].
  - exists (N.to_nat (containerW * 2)), (clone_loop containerW scrollWidth oneRun init).
    assert (Hrun : clone_loop_fuel (N.to_nat (containerW * 2)) containerW scrollWidth oneRun init
                   = Some (clone_loop containerW scrollWidth oneRun init)).
    { apply clone_loop_fuel_enough; [assumption |]. unfold gap, init; simpl. lia. }
    repeat split; try assumption; try reflexivity.
    eapply clone_loop_exits. exact Hrun.
Qed.

(** C1: for a non-empty price list and clones of one positive rendered
    width [w], [setupTicker] leaves exactly [n] whole copies of the run in
    the track, where [n * w] is at least twice the container width and no
    smaller number of copies reaches that bound. *)
Theorem setupTicker_minimal_clones (doc : document) (tick : element)
    (clientWidth w : N) (prices : list PriceItem) :
  prices <> [] ->
  ticker_wrap doc = Some clientWidth ->
  getElementById "ticker" doc = Some tick ->
  (0 < w)%N ->
  let containerW := or_else clientWidth 800 in
  exists n : nat,
    clone_loop containerW (fun _ => w) (build_run prices) {| kids := []; totalW := 0 |} =
      {| kids := replicate n (build_run prices); totalW := N.of_nat n * w |} /\
    getElementById "ticker" (setupTicker (fun _ => w) prices doc) =
      Some (setProperty
              {| children := replicate n (build_run prices); style := style tick |}
              "--ticker-duration"
              (pretty (N.max 20 ((N.of_nat n * w + 50) / 100)) +:+ "s")) /\
    (containerW * 2 <= N.of_nat n * w)%N /\
    (forall m : nat, (containerW * 2 <= N.of_nat m * w)%N -> (n <= m)%nat).
Proof.
  intros Hne Hwrap Htick Hw containerW.
  destruct (clone_loop_constant_width containerW w (build_run prices)
              (gap containerW {| kids := []; totalW := 0 |})
              {| kids := []; totalW := 0 |} Hw (Nat.le_refl _))
    as (n & Hrun & Hbound & Hmin).
  simpl in Hrun, Hbound, Hmin.
  exists n. split; [exact Hrun |]. split; [| split].
  - unfold setupTicker. rewrite Hwrap, Htick.
    destruct prices as [|p prices']; [congruence |].
    rewrite getElementById_set_element. simpl children. fold containerW.
    rewrite Hrun. reflexivity.
  - lia.
  - intros m Hm. destruct (Nat.le_gt_cases n m) as [Hle|Hgt]; [assumption |].
    specialize (Hmin m Hgt). lia.
Qed.

(** C8 (as amended): with both anchors present and no price item,
    [setupTicker] empties the ticker track and changes nothing else: no
    clone is appended, the track keeps its style, every other element and
    the container are as before. *)
Theorem setupTicker_empty_clears (doc : document) (tick : element)
    (clientWidth : N) (scrollWidth : nat -> N) :
  ticker_wrap doc = Some clientWidth ->
  getElementById "ticker" doc = Some tick ->
  let doc' := setupTicker scrollWidth [] doc in
  getElementById "ticker" doc' = Some {| children := []; style := style tick |} /\
  (forall id : string, id <> "ticker" -> getElementById id doc' = getElementById id doc) /\
  ticker_wrap doc' = ticker_wrap doc.
Proof.
  intros Hwrap Htick doc'. subst doc'. unfold setupTicker. rewrite Hwrap, Htick.
  split; [apply getElementById_set_element |].
  split; [| simpl; assumption].
  intros id Hne. apply getElementById_set_element_ne. congruence.
Qed.

(** ** The relative-age label *)

Lemma tier_monotone (e1 e2 : Z) :
  e1 <= e2 -> (tier (age_of_elapsed e1) <= tier (age_of_elapsed e2))%nat.
Proof.
  intros Hle. unfold age_of_elapsed.
  assert (Hm : e1 / 60000 <= e2 / 60000) by (apply Z.div_le_mono; lia).
  assert (Hh : e1 / 60000 / 60 <= e2 / 60000 / 60) by (apply Z.div_le_mono; lia).
  repeat match goal with
         | |- context [?a <? ?b] => destruct (Z.ltb_spec a b)
         end; simpl; lia.
Qed.

Lemma fmtTimeAgo_valid (now ms : Z) (dateStr : string) :
  new_Date dateStr = ValidDate ms ->
  fmtTimeAgo now dateStr = show_age (age_of_elapsed (Z.max 0 (now - ms))).
Proof.
  intros Hd. unfold fmtTimeAgo, age_of_elapsed. rewrite Hd. simpl.
  repeat match goal with
         | |- context [?a <? ?b] => destruct (Z.ltb_spec a b)
         end; reflexivity.
Qed.

(** C2: on a parsed timestamp, [fmtTimeAgo] takes the elapsed time
    [max(0, now - timestamp)], floors it to whole minutes, and answers
    "just now" below 1 minute, "{n}m ago" below 60 minutes, "{n}h ago"
    while the floored hours are below 24, and "{n}d ago" otherwise; the
    tier of the answer never decreases as the elapsed time grows. *)
Theorem fmtTimeAgo_tiers (now ms : Z) (dateStr : string) :
  new_Date dateStr = ValidDate ms ->
  let elapsed := Z.max 0 (now - ms) in
  let mins := elapsed / 60000 in
  fmtTimeAgo now dateStr =
    (if mins <? 1 then "just now"
     else if mins <? 60 then pretty mins +:+ "m ago"
     else if mins / 60 <? 24 then pretty (mins / 60) +:+ "h ago"
     else pretty (mins / 60 / 24) +:+ "d ago") /\
  fmtTimeAgo now dateStr = show_age (age_of_elapsed elapsed) /\
  (forall (now' ms' : Z) (dateStr' : string),
     new_Date dateStr' = ValidDate ms' ->
     elapsed <= Z.max 0 (now' - ms') ->
     fmtTimeAgo now' dateStr' = show_age (age_of_elapsed (Z.max 0 (now' - ms'))) /\
     (tier (age_of_elapsed elapsed) <= tier (age_of_elapsed (Z.max 0 (now' - ms'))))%nat).
Proof.
  intros Hd elapsed mins.
  pose proof (fmtTimeAgo_valid now ms dateStr Hd) as Hshow. fold elapsed in Hshow.
  split; [| split].
  - rewrite Hshow. unfold age_of_elapsed. fold mins.
    repeat match goal with
           | |- context [?a <? ?b] => destruct (Z.ltb_spec a b)
           end; reflexivity.
  - exact Hshow.
  - intros now' ms' dateStr' Hd' Hle. split.
    + apply fmtTimeAgo_valid. exact Hd'.
    + apply tier_monotone. exact Hle.
Qed.

(** C5 (what the code does): on a timestamp that does not parse,
    [new Date] yields an invalid date without throwing, every comparison
    with [NaN] fails, and [fmtTimeAgo] answers "NaNd ago". *)
Theorem fmtTimeAgo_invalid_date (now : Z) (dateStr : string) :
  new_Date dateStr = InvalidDate ->
  fmtTimeAgo now dateStr = "NaNd ago".
Proof.
  intros Hd. unfold fmtTimeAgo. rewrite Hd. reflexivity.
Qed.

(** ** The renderers' loops in closed form *)

Lemma append_nonempty_r (s1 s2 : string) : s2 <> "" -> s1 +:+ s2 <> "".
Proof.
  intros Hne. destruct s1 as [|c s1]; simpl; [assumption | discriminate].
Qed.

Lemma foldl_list_entries (now_at : nat -> Z) (items : list HeadlineItem) :
  forall el : element,
    foldl (fun acc it =>
             appendChild acc (list_entry (now_at (length (children acc))) it))
          el items =
    {| children :=
         children el ++
         imap (fun k it => list_entry (now_at (length (children el) + k)%nat) it) items;
       style := style el |}.
Proof.
  induction items as [|it items IH]; intros el; simpl.
  - rewrite app_nil_r. destruct el; reflexivity.
  - rewrite IH. unfold appendChild; simpl. f_equal.
    rewrite <- app_assoc. simpl. f_equal. rewrite Nat.add_0_r. f_equal.
    apply imap_ext. intros k x _. simpl.
    rewrite length_app. simpl. do 2 f_equal. lia.
Qed.

Lemma fill_rows_map (cls : Q -> string) (tbody : element) (items : list PriceItem) :
  fill_rows cls tbody items =
  {| children := map (market_row cls) items; style := style tbody |}.
Proof.
  unfold fill_rows.
  assert (Hgen : forall el : element,
             foldl (fun acc c => appendChild acc (market_row cls c)) el items =
             {| children := children el ++ map (market_row cls) items;
                style := style el |}).
  { induction items as [|c items IH]; intros el; simpl.
    - rewrite app_nil_r. destruct el; reflexivity.
    - rewrite IH. unfold appendChild; simpl. rewrite <- app_assoc. reflexivity. }
  rewrite Hgen. reflexivity.
Qed.

(** C7: [renderList] does nothing when the target is absent; otherwise
    the target's children become exactly one [li] per item, in input
    order, whatever the target held before.  Each [li] holds an anchor
    labelled with the title, then a [span.meta] whose text is the relative
    age followed by " • {source}" when the item has a source. *)
Theorem renderList_entries (now_at : nat -> Z) (id : string)
    (items : option (list HeadlineItem)) (doc : document) :
  let entries :=
    imap (fun k it =>
            Elem "li" []
              [Elem "a" [("href", link it); ("target", "_blank"); ("rel", "noopener")]
                 (text (title it));
               Elem "span" [("class", "meta")]
                 (text (fmtTimeAgo (now_at k) (published_at it) +:+
                        match source it with
                        | Some s => if decide (s = "") then "" else " • " +:+ s
                        | None => ""
                        end))])
         (default [] items) in
  renderList now_at id items doc =
    match getElementById id doc with
    | None => doc
    | Some el => set_element id {| children := entries; style := style el |} doc
    end /\
  length entries = length (default [] items).
Proof.
  intros entries. split.
  - unfold renderList. destruct (getElementById id doc) as [el|]; [| reflexivity].
    rewrite foldl_list_entries. reflexivity.
  - subst entries. apply length_imap.
Qed.

(** C6: when the page has the market table body, [renderMarkets] fills it
    with one row for each of the first [min 50 (length prices)] items, in
    input order: the upper-cased symbol, the formatted price, and a change
    cell that carries the two-decimal percentage with class "positive" for
    a change of at least 0 and "negative" below 0, or an em-dash and no
    class when the change is missing. *)
Theorem renderMarkets_rows (prices : list PriceItem) (doc : document) :
  let row (c : PriceItem) :=
    Elem "tr" []
      [Elem "td" [] (text (toUpperCase (default "" (symbol c))));
       Elem "td" [] (text (match price c with
                           | Some q => "$" +:+ toLocaleString q
                           | None => ""
                           end));
       match change24h c with
       | Some change =>
           Elem "td" [("class", if Qle_bool 0 change then "positive" else "negative")]
             [Text (toFixed2 change +:+ "%")]
       | None => Elem "td" [] [Text "—"]
       end] in
  renderMarkets prices doc =
    match getElementById "market-body" doc with
    | None => doc
    | Some tbody =>
        set_element "market-body"
          {| children := map row (take 50 prices); style := style tbody |} doc
    end /\
  length (map row (take 50 prices)) = Nat.min 50 (length prices) /\
  map row (take 50 prices) = take 50 (map row prices).
Proof.
  intros row.
  assert (Hrow : forall c, market_row sign_class c = row c).
  { intros c. unfold market_row, row, sign_class, price_text.
    destruct (change24h c) as [change|]; [| reflexivity].
    do 3 f_equal. unfold text.
    destruct (decide (toFixed2 change +:+ "%" = "")) as [Hempty|]; [| reflexivity].
    exfalso. revert Hempty. apply append_nonempty_r. discriminate. }
  split; [| split].
  - unfold renderMarkets.
    destruct (getElementById "market-body" doc) as [tbody|]; [| reflexivity].
    rewrite fill_rows_map. do 2 f_equal. apply map_ext. exact Hrow.
  - rewrite length_map, length_take. reflexivity.
  - apply (fmap_take row).
Qed.

(** ** The sentiment label *)

Lemma sentiment_text_nonempty (avg : number) : sentiment_text avg <> "".
Proof. unfold sentiment_text. simpl. discriminate. Qed.

(** What [renderGainersLosers] leaves when both table bodies, the
    sentiment element and the full price list are there. *)
Lemma renderGainersLosers_sentiment (feed : PriceFeed) (ps : list PriceItem)
    (w : world) (gainersBody losersBody sentimentEl : element) :
  feed_prices feed = Some ps ->
  getElementById "gainers-body" (page w) = Some gainersBody ->
  getElementById "losers-body" (page w) = Some losersBody ->
  getElementById "sentiment-indicator" (page w) = Some sentimentEl ->
  exists w' : world,
    renderGainersLosers feed w = (inr tt, w') /\
    console w' = console w /\
    getElementById "sentiment-indicator" (page w') =
      Some {| children := [Text (sentiment_text (avgChange ps))];
              style := style sentimentEl |}.
Proof.
  intros Hps Hg Hl Hs. unfold renderGainersLosers.
  rewrite Hg, Hl, Hs, Hps.
  eexists. split; [reflexivity |]. split; [reflexivity |].
  simpl page. rewrite getElementById_set_element.
  unfold set_textContent, text.
  destruct (decide (sentiment_text (avgChange ps) = "")) as [Hempty|]; [| reflexivity].
  exfalso. exact (sentiment_text_nonempty _ Hempty).
Qed.

(** Adding the [0] that stands for a missing change leaves a running sum
    as it is. *)
Lemma number_add_zero (x : number) :
  x <> S754_zero true -> number_add x pos_zero = x.
Proof.
  intros Hx. destruct x as [[]| | |]; try reflexivity. congruence.
Qed.

(** C3 (as amended): with the table bodies and the sentiment element on
    the page and a non-empty full price list, the published label carries
    the mean of [change24h] as the script computes it in binary64: the
    changes are added from left to right, starting from 0, a missing or
    zero change adding 0, every sum rounded to the nearest double, and the
    total is divided by the length of the list and rounded once more.
    The label reads "Bullish" exactly when this computed mean is strictly
    positive and "Bearish" otherwise, zero included, and prints the
    computed mean with two decimals (for a magnitude below 10^21, where
    [toFixed] uses the fixed notation). *)
Theorem sentiment_label (feed : PriceFeed) (ps : list PriceItem) (w : world)
    (gainersBody losersBody sentimentEl : element) :
  feed_prices feed = Some ps ->
  ps <> [] ->
  getElementById "gainers-body" (page w) = Some gainersBody ->
  getElementById "losers-body" (page w) = Some losersBody ->
  getElementById "sentiment-indicator" (page w) = Some sentimentEl ->
  let sum :=
    foldl (fun acc p =>
             number_add acc
               match change24h p with
               | Some change =>
                   match to_double change with
                   | S754_zero _ | S754_nan => pos_zero
                   | x => x
                   end
               | None => pos_zero
               end)
          pos_zero ps in
  let mean := number_div sum (length_number (length ps)) in
  fixed_notation mean = true ->
  let sentiment := if SFltb pos_zero mean then "Bullish" else "Bearish" in
  avgChange ps = mean /\
  (forall x : number, x <> S754_zero true -> number_add x pos_zero = x) /\
  (sentiment = "Bullish" <-> SFcompare pos_zero mean = Some Lt) /\
  (sentiment = "Bearish" <-> SFcompare pos_zero mean <> Some Lt) /\
  exists w' : world,
    renderGainersLosers feed w = (inr tt, w') /\
    getElementById "sentiment-indicator" (page w') =
      Some {| children :=
                [Text ("Market Sentiment: " +:+ sentiment +:+ " (Avg 24h Change: "
                         +:+ match mean with
                             | S754_zero _ => "0.00"
                             | S754_finite s m e => toFixed2 (finite_value s m e)
                             | S754_infinity negative =>
                                 if negative then "-Infinity" else "Infinity"
                             | S754_nan => "NaN"
                             end +:+ "%)")];
              style := style sentimentEl |}.
Proof.
  intros Hps Hne Hg Hl Hs sum mean Hfixed sentiment.
  assert (Havg : avgChange ps = mean) by reflexivity.
  split; [exact Havg |]. split; [exact number_add_zero |].
  assert (Hword : SFltb pos_zero mean = true <-> SFcompare pos_zero mean = Some Lt).
  { unfold SFltb. destruct (SFcompare pos_zero mean) as [[]|]; split;
      intros H; congruence. }
  split; [| split].
  - subst sentiment. destruct (SFltb pos_zero mean); split; intros H.
    + apply Hword. reflexivity.
    + reflexivity.
    + discriminate.
    + apply Hword in H. discriminate.
  - subst sentiment. destruct (SFltb pos_zero mean); split; intros H.
    + discriminate.
    + exfalso. apply H, Hword. reflexivity.
    + intros Hlt. apply Hword in Hlt. discriminate.
    + reflexivity.
  - destruct (renderGainersLosers_sentiment feed ps w gainersBody losersBody sentimentEl
                Hps Hg Hl Hs) as (w' & Hrun & _ & Hlabel).
    exists w'. split; [exact Hrun |]. rewrite Hlabel, Havg.
    unfold sentiment_text, number_gt0, number_toFixed2. subst sentiment.
    destruct mean as [[]|[]| |]; reflexivity.
Qed.

(** C10: the sentiment mean is not guarded against the empty list.  With
    the table bodies and the sentiment element on the page and an empty
    full price list, the sum 0 is divided by the length 0, the mean is
    [NaN], and the published label is "Bearish" with "NaN" as the
    percentage. *)
Theorem sentiment_empty_list (feed : PriceFeed) (w : world)
    (gainersBody losersBody sentimentEl : element) :
  feed_prices feed = Some [] ->
  getElementById "gainers-body" (page w) = Some gainersBody ->
  getElementById "losers-body" (page w) = Some losersBody ->
  getElementById "sentiment-indicator" (page w) = Some sentimentEl ->
  avgChange [] = div_length pos_zero 0 /\
  div_length pos_zero 0 = NaN /\
  number_gt0 NaN = false /\
  exists w' : world,
    renderGainersLosers feed w = (inr tt, w') /\
    getElementById "sentiment-indicator" (page w') =
      Some {| children := [Text "Market Sentiment: Bearish (Avg 24h Change: NaN%)"];
              style := style sentimentEl |}.
Proof.
  intros Hps Hg Hl Hs.
  split; [reflexivity |]. split; [reflexivity |]. split; [reflexivity |].
  destruct (renderGainersLosers_sentiment feed [] w gainersBody losersBody sentimentEl
              Hps Hg Hl Hs) as (w' & Hrun & _ & Hlabel).
  exists w'. split; [exact Hrun |]. rewrite Hlabel. reflexivity.
Qed.

(** ** The refresh cycle *)

Lemma load_feeds_failure (env : cycle_env) :
  fetch_ok (headlines_fetch env) = false \/ fetch_ok (prices_fetch env) = false ->
  exists e : exn, load_feeds env = inl e.
Proof.
  unfold load_feeds, Promise_all, loadJSON, fetch_ok.
  destruct (headlines_fetch env) as [|[] [h|]], (prices_fetch env) as [|[] [p|]];
    intros [Hbad|Hbad]; try discriminate; eauto.
Qed.

(** C4: when either fetch fails (transport error, non-OK status or
    malformed JSON), [refreshAll] completes normally, the page is exactly
    the page it started with, so no renderer ran, and the failure is
    logged once.  It holds for the cycle of both scripts. *)
Theorem refreshAll_failure_keeps_page (env : cycle_env) (w : world) :
  fetch_ok (headlines_fetch env) = false \/ fetch_ok (prices_fetch env) = false ->
  exists e : exn,
    load_feeds env = inl e /\
    refreshAll env w = (inr tt, {| page := page w; console := console w ++ [e] |}) /\
    refreshAll_split env w =
      (inr tt, {| page := page w; console := console w ++ [e] |}).
Proof.
  intros Hbad. destruct (load_feeds_failure env Hbad) as [e He].
  exists e. split; [exact He |].
  unfold refreshAll, refreshAll_split, try_catch, refresh_body, refresh_body_split.
  unfold mbind, eff_bind, bind. rewrite He. simpl. split; reflexivity.
Qed.

(** ** More on the ticker *)

Lemma foldl_snoc_map {A B} (f : A -> B) (l : list A) :
  forall acc : list B, foldl (fun spans p => spans ++ [f p]) acc l = acc ++ map f l.
Proof.
  induction l as [|x l IH]; intros acc; simpl.
  - rewrite app_nil_r. reflexivity.
  - rewrite IH, <- app_assoc. reflexivity.
Qed.

(** Whatever widths the layout reports, the loop appends only copies of
    the run, at most one per unit of the remaining gap, at least one when
    it is entered, and it stops at the first clone that reaches the bound. *)
Lemma clone_loop_copies containerW scrollWidth oneRun (g : nat) :
  forall st,
    (0 < containerW)%N ->
    (gap containerW st <= g)%nat ->
    exists j : nat,
      kids (clone_loop containerW scrollWidth oneRun st) =
        kids st ++ replicate j oneRun /\
      (j <= g)%nat /\
      ((totalW st < containerW * 2)%N ->
       (1 <= j)%nat /\
       (totalW (clone_loop containerW scrollWidth oneRun st) <
          containerW * 2 +
          or_else (scrollWidth (length (kids st) + j - 1)%nat) containerW)%N).
Proof.
  induction g as [|g IH]; intros st Hpos Hgap; rewrite clone_loop_eq;
    destruct (decide (totalW st < containerW * 2)%N) as [Hlt|Hge].
  - unfold gap in Hgap. lia.
  - exists O. simpl. rewrite app_nil_r. split; [reflexivity |]. split; [lia | intros; lia].
  - pose proof (loop_body_grows containerW scrollWidth oneRun st Hpos) as Hgrow.
    set (st' := loop_body containerW scrollWidth oneRun st) in *.
    assert (Hkids : kids st' = kids st ++ [oneRun]) by reflexivity.
    assert (Htot : totalW st' =
                   (totalW st + or_else (scrollWidth (length (kids st))) containerW)%N)
      by reflexivity.
    destruct (IH st' Hpos) as (j & Hj & Hjg & Hover).
    { unfold gap in *. lia. }
    exists (S j). split; [| split; [lia |]].
    + rewrite Hj, Hkids, <- app_assoc. reflexivity.
    + intros _. split; [lia |].
      destruct (decide (totalW st' < containerW * 2)%N) as [Hlt'|Hge'].
      * destruct (Hover Hlt') as [Hj1 Hbound].
        rewrite Hkids, length_app in Hbound. simpl in Hbound.
        replace (length (kids st) + S j - 1)%nat
          with (length (kids st) + 1 + j - 1)%nat by lia.
        exact Hbound.
      * rewrite clone_loop_eq in Hj |- *.
        destruct (decide (totalW st' < containerW * 2)%N); [lia |].
        assert (j = O) as ->.
        { apply (f_equal length) in Hj. rewrite length_app, length_replicate in Hj. lia. }
        replace (length (kids st) + 1 - 1)%nat with (length (kids st)) by lia.
        rewrite Htot. lia.
  - exists O. simpl. rewrite app_nil_r. split; [reflexivity |]. split; [lia | intros; lia].
Qed.

Lemma setupTicker_same_outside (scrollWidth : nat -> N) (prices : list PriceItem)
    (doc : document) :
  same_outside ["ticker"] doc (setupTicker scrollWidth prices doc).
Proof.
  unfold same_outside, setupTicker.
  destruct (ticker_wrap doc) as [clientWidth|] eqn:Hwrap;
    destruct (getElementById "ticker" doc) as [tick|] eqn:Htick;
    try (split; [assumption | reflexivity]).
  destruct prices as [|p prices']; (split; [simpl; assumption |]);
    intros id Hid; apply getElementById_set_element_ne; intros <-; apply Hid; set_unfold; tauto.
Qed.

(** [setupTicker] writes to the ticker track only, and to nothing at all
    when the container or the track is missing. *)
Theorem setupTicker_frame (scrollWidth : nat -> N) (prices : list PriceItem)
    (doc : document) :
  same_outside ["ticker"] doc (setupTicker scrollWidth prices doc) /\
  (ticker_wrap doc = None \/ getElementById "ticker" doc = None ->
   setupTicker scrollWidth prices doc = doc).
Proof.
  split; [apply setupTicker_same_outside |].
  unfold setupTicker.
  destruct (ticker_wrap doc) as [clientWidth|]; [| reflexivity].
  destruct (getElementById "ticker" doc) as [tick|]; [| reflexivity].
  intros [Hnone|Hnone]; discriminate.
Qed.

(** On a non-empty list, whatever the clone widths: the track's earlier
    content is gone and it holds [j >= 1] identical copies of the run, one
    span per price item in feed order; [j] is at most twice the container
    width, and without the last copy the accumulated width would be below
    the bound. *)
Theorem setupTicker_track_contents (doc : document) (tick : element)
    (clientWidth : N) (scrollWidth : nat -> N) (prices : list PriceItem) :
  prices <> [] ->
  ticker_wrap doc = Some clientWidth ->
  getElementById "ticker" doc = Some tick ->
  let containerW := or_else clientWidth 800 in
  let run := Elem "div" [("class", "ticker-track")]
               (map (fun p => Elem "span" [] (text (ticker_label p))) prices) in
  exists j : nat,
    children <$> getElementById "ticker" (setupTicker scrollWidth prices doc) =
      Some (replicate j run) /\
    (1 <= j <= N.to_nat (containerW * 2))%nat /\
    (totalW (clone_loop containerW scrollWidth run {| kids := []; totalW := 0 |}) <
       containerW * 2 + or_else (scrollWidth (j - 1)%nat) containerW)%N.
Proof.
  intros Hne Hwrap Htick containerW run.
  assert (Hrun : build_run prices = run).
  { unfold build_run, run. rewrite foldl_snoc_map. reflexivity. }
  pose proof (container_width_pos clientWidth) as Hpos. fold containerW in Hpos.
  destruct (clone_loop_copies containerW scrollWidth run
              (N.to_nat (containerW * 2)) {| kids := []; totalW := 0 |} Hpos)
    as (j & Hj & Hjg & Hover).
  { unfold gap; simpl. lia. }
  simpl in Hj, Hover. destruct Hover as [Hj1 Hbound]; [lia |].
  exists j. split; [| split; [lia | exact Hbound]].
  rewrite (setupTicker_runs_loop doc tick clientWidth scrollWidth prices Hne Hwrap Htick).
  simpl. fold containerW. rewrite Hrun, Hj. reflexivity.
Qed.

Lemma clone_loop_reaches_bound containerW scrollWidth oneRun st :
  (0 < containerW)%N ->
  (containerW * 2 <= totalW (clone_loop containerW scrollWidth oneRun st))%N.
Proof.
  intros Hpos.
  eapply (clone_loop_exits containerW scrollWidth oneRun (gap containerW st) st).
  apply clone_loop_fuel_enough; [assumption | lia].
Qed.

(** The scroll duration published on the track is a whole number of
    seconds, never below 20; above that floor it is the accumulated width
    divided by 100 and rounded to the nearest integer, and the accumulated
    width it is computed from is at least twice the container width. *)
Theorem ticker_duration_bounds (doc : document) (tick : element)
    (clientWidth : N) (scrollWidth : nat -> N) (prices : list PriceItem) :
  prices <> [] ->
  ticker_wrap doc = Some clientWidth ->
  getElementById "ticker" doc = Some tick ->
  let containerW := or_else clientWidth 800 in
  let total := totalW (clone_loop containerW scrollWidth (build_run prices)
                         {| kids := []; totalW := 0 |}) in
  exists d : N,
    style <$> getElementById "ticker" (setupTicker scrollWidth prices doc) =
      Some (<["--ticker-duration" := pretty d +:+ "s"]> (style tick)) /\
    (20 <= d)%N /\
    (containerW * 2 <= total)%N /\
    (total < 100 * d + 50)%N /\
    (d = 20 \/ 100 * d <= total + 50)%N.
Proof.
  intros Hne Hwrap Htick containerW total.
  exists (N.max 20 ((total + 50) / 100)).
  rewrite (setupTicker_runs_loop doc tick clientWidth scrollWidth prices Hne Hwrap Htick).
  fold containerW total.
  split; [reflexivity |]. split; [lia |].
  split; [apply clone_loop_reaches_bound, container_width_pos |].
  pose proof (N.div_mod (total + 50) 100 ltac:(lia)) as Hdiv.
  pose proof (N.mod_upper_bound (total + 50) 100 ltac:(lia)) as Hmod.
  clearbody total.
  set (q := ((total + 50) / 100)%N) in *. set (r := ((total + 50) mod 100)%N) in *.
  clearbody q r. split; lia.
Qed.

Lemma setupTicker_present (doc : document) (tick : element) (clientWidth : N)
    (scrollWidth : nat -> N) (prices : list PriceItem) :
  ticker_wrap doc = Some clientWidth ->
  getElementById "ticker" doc = Some tick ->
  setupTicker scrollWidth prices doc =
  set_element "ticker"
    (match prices with
     | [] => clear_children tick
     | _ :: _ =>
         let final := clone_loop (or_else clientWidth 800) scrollWidth (build_run prices)
                        {| kids := []; totalW := 0 |} in
         setProperty {| children := kids final; style := style tick |}
           "--ticker-duration" (pretty (N.max 20 ((totalW final + 50) / 100)) +:+ "s")
     end) doc.
Proof.
  intros Hwrap Htick. unfold setupTicker. rewrite Hwrap, Htick.
  destruct prices; reflexivity.
Qed.

Lemma set_element_twice (id : string) (el el' : element) (doc : document) :
  set_element id el' (set_element id el doc) = set_element id el' doc.
Proof. unfold set_element; simpl. f_equal. apply insert_insert_eq. Qed.

(** Running [setupTicker] again on its own result, with the same prices
    and the same layout widths, changes nothing: the track is rebuilt to
    the same copies and the same duration. *)
Theorem setupTicker_idempotent (scrollWidth : nat -> N) (prices : list PriceItem)
    (doc : document) :
  setupTicker scrollWidth prices (setupTicker scrollWidth prices doc) =
  setupTicker scrollWidth prices doc.
Proof.
  destruct (ticker_wrap doc) as [clientWidth|] eqn:Hwrap;
    [destruct (getElementById "ticker" doc) as [tick|] eqn:Htick |].
  - rewrite (setupTicker_present doc tick clientWidth scrollWidth prices Hwrap Htick).
    erewrite setupTicker_present;
      [| simpl; exact Hwrap | apply getElementById_set_element].
    rewrite set_element_twice. f_equal.
    destruct prices as [|p prices']; [reflexivity |].
    unfold setProperty; simpl. f_equal. apply insert_insert_eq.
  - assert (Hsame : setupTicker scrollWidth prices doc = doc)
      by (unfold setupTicker; rewrite Hwrap, Htick; reflexivity).
    rewrite !Hsame. reflexivity.
  - assert (Hsame : setupTicker scrollWidth prices doc = doc)
      by (unfold setupTicker; rewrite Hwrap; reflexivity).
    rewrite !Hsame. reflexivity.
Qed.

(** ** How the renderers compose *)

Lemma renderList_closed (now_at : nat -> Z) (id : string)
    (items : option (list HeadlineItem)) (doc : document) :
  renderList now_at id items doc =
  match getElementById id doc with
  | None => doc
  | Some el =>
      set_element id
        {| children := imap (fun k it => list_entry (now_at k) it) (default [] items);
           style := style el |} doc
  end.
Proof.
  unfold renderList. destruct (getElementById id doc) as [el|]; [| reflexivity].
  rewrite foldl_list_entries. reflexivity.
Qed.

Lemma renderMarkets_closed (prices : list PriceItem) (doc : document) :
  renderMarkets prices doc =
  match getElementById "market-body" doc with
  | None => doc
  | Some tbody =>
      set_element "market-body"
        {| children := map (market_row sign_class) (take 50 prices);
           style := style tbody |} doc
  end.
Proof.
  unfold renderMarkets. destruct (getElementById "market-body" doc); [| reflexivity].
  rewrite fill_rows_map. reflexivity.
Qed.

Lemma set_element_commute (id1 id2 : string) (el1 el2 : element) (doc : document) :
  id1 <> id2 ->
  set_element id1 el1 (set_element id2 el2 doc) =
  set_element id2 el2 (set_element id1 el1 doc).
Proof.
  intros Hne. unfold set_element; simpl. f_equal. apply insert_insert_ne. congruence.
Qed.

(** A list rendered twice shows the second render only: what
    [renderList] leaves depends on the target's style and the items of
    the last call, never on the entries an earlier call left. *)
Theorem renderList_last_wins (now1 now2 : nat -> Z) (id : string)
    (items1 items2 : option (list HeadlineItem)) (doc : document) :
  renderList now2 id items2 (renderList now1 id items1 doc) =
  renderList now2 id items2 doc.
Proof.
  rewrite !renderList_closed.
  destruct (getElementById id doc) as [el|] eqn:Hel.
  - rewrite getElementById_set_element. simpl style. apply set_element_twice.
  - rewrite Hel. reflexivity.
Qed.

(** Lists with different targets are independent: rendering them in
    either order gives the same page. *)
Theorem renderList_commute (now1 now2 : nat -> Z) (id1 id2 : string)
    (items1 items2 : option (list HeadlineItem)) (doc : document) :
  id1 <> id2 ->
  renderList now1 id1 items1 (renderList now2 id2 items2 doc) =
  renderList now2 id2 items2 (renderList now1 id1 items1 doc).
Proof.
  intros Hne. rewrite !renderList_closed.
  destruct (getElementById id1 doc) as [el1|] eqn:H1;
    destruct (getElementById id2 doc) as [el2|] eqn:H2;
    rewrite ?getElementById_set_element_ne by congruence;
    rewrite ?H1, ?H2; try reflexivity.
  apply set_element_commute. exact Hne.
Qed.

(** The market table shows the last render only, and only the first 50
    items of it matter. *)
Theorem renderMarkets_last_wins (prices1 prices2 : list PriceItem) (doc : document) :
  renderMarkets prices2 (renderMarkets prices1 doc) = renderMarkets (take 50 prices2) doc.
Proof.
  rewrite !renderMarkets_closed.
  destruct (getElementById "market-body" doc) as [tbody|] eqn:Hbody.
  - rewrite getElementById_set_element. simpl style. rewrite set_element_twice.
    rewrite take_take. reflexivity.
  - rewrite Hbody. reflexivity.
Qed.

(** ** The gainers and losers tables *)

(** Read an element back through the writes made after it. *)
Ltac lookup_set :=
  repeat first
    [ rewrite getElementById_set_element
    | rewrite getElementById_set_element_ne by discriminate ].

Lemma renderGainersLosers_present (feed : PriceFeed) (w : world)
    (gainersBody losersBody : element) :
  getElementById "gainers-body" (page w) = Some gainersBody ->
  getElementById "losers-body" (page w) = Some losersBody ->
  renderGainersLosers feed w =
  let tables :=
    set_element "losers-body"
      (fill_rows (fun _ => "negative") losersBody (take 15 (default [] (feed_losers feed))))
      (set_element "gainers-body"
         (fill_rows (fun _ => "positive") gainersBody
            (take 15 (default [] (feed_gainers feed))))
         (page w)) in
  match getElementById "sentiment-indicator" (page w), feed_prices feed with
  | Some el, Some ps =>
      (inr tt,
       {| page := set_element "sentiment-indicator"
                    (set_textContent el (sentiment_text (avgChange ps))) tables;
          console := console w |})
  | Some el, None =>
      (inl (TypeError "prices.prices is undefined"),
       {| page := tables; console := console w |})
  | None, _ => (inr tt, {| page := tables; console := console w |})
  end.
Proof.
  intros Hg Hl. unfold renderGainersLosers. rewrite Hg, Hl.
  destruct (getElementById "sentiment-indicator" (page w)) as [el|];
    [destruct (feed_prices feed) as [ps|] |]; reflexivity.
Qed.

(** With both table bodies on the page, [renderGainersLosers] replaces
    their rows by the first 15 gainers and the first 15 losers in feed
    order (none when the feed has no such list).  Every numeric change
    cell of the gainers table is classed "positive" and every one of the
    losers table "negative", whatever the sign of the change; the console
    is not written.  This holds also when the call goes on to throw. *)
Theorem renderGainersLosers_tables (feed : PriceFeed) (w : world)
    (gainersBody losersBody : element) :
  getElementById "gainers-body" (page w) = Some gainersBody ->
  getElementById "losers-body" (page w) = Some losersBody ->
  let row (cls : string) (c : PriceItem) :=
    Elem "tr" []
      [Elem "td" [] (text (toUpperCase (default "" (symbol c))));
       Elem "td" [] (text (price_text c));
       match change24h c with
       | Some change => Elem "td" [("class", cls)] (text (toFixed2 change +:+ "%"))
       | None => Elem "td" [] [Text "—"]
       end] in
  let w' := snd (renderGainersLosers feed w) in
  getElementById "gainers-body" (page w') =
    Some {| children := map (row "positive") (take 15 (default [] (feed_gainers feed)));
            style := style gainersBody |} /\
  getElementById "losers-body" (page w') =
    Some {| children := map (row "negative") (take 15 (default [] (feed_losers feed)));
            style := style losersBody |} /\
  console w' = console w.
Proof.
  intros Hg Hl row w'. subst w'.
  rewrite (renderGainersLosers_present feed w gainersBody losersBody Hg Hl).
  rewrite !fill_rows_map.
  assert (Hrow : forall cls c, market_row (fun _ => cls) c = row cls c).
  { intros cls c. unfold market_row, row. destruct (change24h c); reflexivity. }
  rewrite (map_ext _ _ (Hrow "positive")), (map_ext _ _ (Hrow "negative")).
  cbv zeta.
  destruct (getElementById "sentiment-indicator" (page w)) as [el|];
    [destruct (feed_prices feed) as [ps|] |]; simpl page; simpl console;
    lookup_set; auto.
Qed.

Lemma renderGainersLosers_missing_body_aux (feed : PriceFeed) (w : world) :
  getElementById "gainers-body" (page w) = None \/
  getElementById "losers-body" (page w) = None ->
  renderGainersLosers feed w = (inr tt, w).
Proof.
  intros Hnone. unfold renderGainersLosers.
  destruct (getElementById "gainers-body" (page w)) as [g|];
    destruct (getElementById "losers-body" (page w)) as [l|];
    try reflexivity.
  destruct Hnone; discriminate.
Qed.

(** When either table body is missing the whole call does nothing: the
    other table is left alone, the sentiment label is not refreshed even
    if its element is there, and nothing is thrown. *)
Theorem renderGainersLosers_missing_body (feed : PriceFeed) (w : world) :
  getElementById "gainers-body" (page w) = None \/
  getElementById "losers-body" (page w) = None ->
  renderGainersLosers feed w = (inr tt, w).
Proof. apply renderGainersLosers_missing_body_aux. Qed.

(** [renderGainersLosers] throws in exactly one situation: both table
    bodies and the sentiment element are on the page and the feed has no
    full price list.  The sentiment element then keeps its content. *)
Theorem renderGainersLosers_throws_iff (feed : PriceFeed) (w : world) :
  let r := renderGainersLosers feed w in
  ((exists e : exn, fst r = inl e) <->
   is_Some (getElementById "gainers-body" (page w)) /\
   is_Some (getElementById "losers-body" (page w)) /\
   is_Some (getElementById "sentiment-indicator" (page w)) /\
   feed_prices feed = None) /\
  ((exists e : exn, fst r = inl e) ->
   getElementById "sentiment-indicator" (page (snd r)) =
   getElementById "sentiment-indicator" (page w)).
Proof.
  intros r. subst r.
  destruct (getElementById "gainers-body" (page w)) as [g|] eqn:Hg;
    [destruct (getElementById "losers-body" (page w)) as [l|] eqn:Hl |].
  - rewrite (renderGainersLosers_present feed w g l Hg Hl). cbv zeta.
    destruct (getElementById "sentiment-indicator" (page w)) as [el|] eqn:Hs;
      [destruct (feed_prices feed) as [ps|] |]; simpl.
    + split; [split |]; [intros [e He]; discriminate | | intros [e He]; discriminate].
      intros (_ & _ & _ & Hnone); discriminate.
    + split; [split; [intros _; repeat split; eauto | intros _; eauto] |].
      intros _. lookup_set. exact Hs.
    + split; [split |]; [intros [e He]; discriminate | | intros [e He]; discriminate].
      intros (_ & _ & [x Hx] & _); discriminate.
  - rewrite renderGainersLosers_missing_body_aux by (right; exact Hl). simpl.
    split; [split |]; [intros [e He]; discriminate | | intros [e He]; discriminate].
    intros (_ & [x Hx] & _); discriminate.
  - rewrite renderGainersLosers_missing_body_aux by (left; exact Hg). simpl.
    split; [split |]; [intros [e He]; discriminate | | intros [e He]; discriminate].
    intros ([x Hx] & _); discriminate.
Qed.

(** ** What a cycle writes to *)

Lemma same_outside_refl (ids : list string) (doc : document) : same_outside ids doc doc.
Proof. split; reflexivity. Qed.

Lemma same_outside_trans (ids1 ids2 ids : list string) (a b c : document) :
  (forall id, id ∈ ids1 -> id ∈ ids) ->
  (forall id, id ∈ ids2 -> id ∈ ids) ->
  same_outside ids1 a b -> same_outside ids2 b c -> same_outside ids a c.
Proof.
  intros Hsub1 Hsub2 [Hw1 Hf1] [Hw2 Hf2]. split; [congruence |].
  intros id Hid. rewrite Hf2, Hf1; [reflexivity | |]; intros Hin; apply Hid; auto.
Qed.

Lemma set_element_same_outside (id : string) (el : element) (doc : document) :
  same_outside [id] doc (set_element id el doc).
Proof.
  split; [reflexivity |]. intros id' Hid.
  apply getElementById_set_element_ne. intros <-. apply Hid. set_unfold. tauto.
Qed.

Lemma renderList_same_outside (now_at : nat -> Z) (id : string)
    (items : option (list HeadlineItem)) (doc : document) :
  same_outside [id] doc (renderList now_at id items doc).
Proof.
  rewrite renderList_closed. destruct (getElementById id doc);
    [apply set_element_same_outside | apply same_outside_refl].
Qed.

Lemma renderMarkets_same_outside (prices : list PriceItem) (doc : document) :
  same_outside ["market-body"] doc (renderMarkets prices doc).
Proof.
  rewrite renderMarkets_closed. destruct (getElementById "market-body" doc);
    [apply set_element_same_outside | apply same_outside_refl].
Qed.

Lemma setLastUpdated_same_outside (iso : option string) (doc : document) :
  same_outside ["lastUpdated"] doc (setLastUpdated iso doc).
Proof.
  unfold setLastUpdated.
  destruct (getElementById "lastUpdated" doc); [| apply same_outside_refl].
  destruct iso as [s|]; [| apply same_outside_refl].
  destruct (decide (s = "")); [apply same_outside_refl | apply set_element_same_outside].
Qed.

Lemma quiet_weaken {A} (ids ids' : list string) (m : Eff A) :
  (forall id, id ∈ ids -> id ∈ ids') -> quiet ids m -> quiet ids' m.
Proof.
  intros Hsub Hq w. destruct (Hq w) as [Hsame Hcons]. split; [| exact Hcons].
  apply (same_outside_trans ids ids ids' _ _ _ Hsub Hsub Hsame), same_outside_refl.
Qed.

Lemma quiet_render (ids : list string) (f : document -> document) :
  (forall doc, same_outside ids doc (f doc)) -> quiet ids (render f).
Proof. intros Hf w. split; [apply Hf | reflexivity]. Qed.

Lemma quiet_bind {A B} (ids : list string) (m : Eff A) (k : A -> Eff B) :
  quiet ids m -> (forall a, quiet ids (k a)) -> quiet ids (bind m k).
Proof.
  intros Hm Hk w. unfold bind. destruct (Hm w) as [Hsame Hcons].
  destruct (m w) as [[e|a] w1]; simpl in *; [split; assumption |].
  destruct (Hk a w1) as [Hsame' Hcons']. split; [| congruence].
  eapply same_outside_trans; eauto.
Qed.

Lemma quiet_await {A} (ids : list string) (p : exn + A) : quiet ids (await p).
Proof. intros w. destruct p; split; solve [apply same_outside_refl | reflexivity]. Qed.

Lemma quiet_renderGainersLosers (feed : PriceFeed) :
  quiet ["gainers-body"; "losers-body"; "sentiment-indicator"] (renderGainersLosers feed).
Proof.
  intros w.
  destruct (getElementById "gainers-body" (page w)) as [g|] eqn:Hg;
    [destruct (getElementById "losers-body" (page w)) as [l|] eqn:Hl |].
  - rewrite (renderGainersLosers_present feed w g l Hg Hl). cbv zeta.
    destruct (getElementById "sentiment-indicator" (page w)) as [el|];
      [destruct (feed_prices feed) as [ps|] |]; simpl;
      (split; [| reflexivity]); (split; [reflexivity |]);
      intros id Hid;
      rewrite !getElementById_set_element_ne by (intros <-; apply Hid; set_unfold; tauto);
      reflexivity.
  - rewrite renderGainersLosers_missing_body_aux by (right; exact Hl).
    split; [apply same_outside_refl | reflexivity].
  - rewrite renderGainersLosers_missing_body_aux by (left; exact Hg).
    split; [apply same_outside_refl | reflexivity].
Qed.

(** Inclusion of one list of region ids in another. *)
Ltac region_incl :=
  let id := fresh "id" in
  let Hin := fresh "Hin" in
  intros id Hin; unfold flat_regions, split_regions, headline_regions in *;
  set_unfold; tauto.

Lemma quiet_renderList (ids : list string) (now_at : nat -> Z) (id : string)
    (items : option (list HeadlineItem)) :
  id ∈ ids -> quiet ids (render (renderList now_at id items)).
Proof.
  intros Hin. apply (quiet_weaken [id]).
  - intros id' Hid'. apply list_elem_of_singleton in Hid'. rewrite Hid'. exact Hin.
  - apply quiet_render. intros doc. apply renderList_same_outside.
Qed.

Lemma quiet_render_headlines (env : cycle_env) (headlines : HeadlineFeed) :
  quiet headline_regions (render_headlines env headlines).
Proof.
  unfold render_headlines, mbind, eff_bind.
  apply quiet_bind; [apply quiet_renderList; unfold headline_regions; set_unfold; tauto | intros _].
  apply quiet_bind; [apply quiet_renderList; unfold headline_regions; set_unfold; tauto | intros _].
  apply quiet_bind; [apply quiet_renderList; unfold headline_regions; set_unfold; tauto | intros _].
  apply quiet_bind; [apply quiet_renderList; unfold headline_regions; set_unfold; tauto | intros _].
  apply quiet_renderList; unfold headline_regions; set_unfold; tauto.
Qed.

Lemma quiet_refresh_body (env : cycle_env) : quiet flat_regions (refresh_body env).
Proof.
  unfold refresh_body, mbind, eff_bind.
  apply quiet_bind; [apply quiet_await |]. intros [headlines prices].
  apply quiet_bind; [| intros _].
  { apply (quiet_weaken headline_regions); [region_incl | apply quiet_render_headlines]. }
  apply quiet_bind; [| intros _].
  { apply (quiet_weaken ["ticker"]); [region_incl |].
    apply quiet_render; intros doc; apply setupTicker_same_outside. }
  apply quiet_bind; [| intros _].
  { apply (quiet_weaken ["market-body"]); [region_incl |].
    apply quiet_render; intros doc; apply renderMarkets_same_outside. }
  apply (quiet_weaken ["lastUpdated"]); [region_incl |].
  apply quiet_render; intros doc; apply setLastUpdated_same_outside.
Qed.

Lemma quiet_refresh_body_split (env : cycle_env) :
  quiet split_regions (refresh_body_split env).
Proof.
  unfold refresh_body_split, mbind, eff_bind.
  apply quiet_bind; [apply quiet_await |]. intros [headlines prices].
  apply quiet_bind; [| intros _].
  { apply (quiet_weaken headline_regions); [region_incl | apply quiet_render_headlines]. }
  apply quiet_bind; [| intros _].
  { apply (quiet_weaken ["ticker"]); [region_incl |].
    apply quiet_render; intros doc; apply setupTicker_same_outside. }
  apply quiet_bind; [| intros _].
  { apply (quiet_weaken ["gainers-body"; "losers-body"; "sentiment-indicator"]);
      [region_incl | apply quiet_renderGainersLosers]. }
  apply (quiet_weaken ["lastUpdated"]); [region_incl |].
  apply quiet_render; intros doc; apply setLastUpdated_same_outside.
Qed.

(** A body that leaves the console alone, wrapped in
    [try ... catch (e) { console.error(e) }]: the result is a normal
    completion, the page is the one the body left, and the console gains
    the thrown error, if any, and nothing else. *)
Lemma try_catch_console_error (ids : list string) (m : Eff unit) (w : world) :
  quiet ids m ->
  fst (try_catch m console_error w) = inr tt /\
  page (snd (try_catch m console_error w)) = page (snd (m w)) /\
  console (snd (try_catch m console_error w)) =
    console w ++ match fst (m w) with inl e => [e] | inr _ => [] end.
Proof.
  intros Hq. destruct (Hq w) as [_ Hcons]. unfold try_catch.
  destruct (m w) as [[e|[]] w1]; simpl in *.
  - rewrite Hcons. auto.
  - rewrite Hcons, app_nil_r. auto.
Qed.


(** A refresh cycle writes to its own regions only: the flat-table script
    to the five headline lists, the ticker, the market table and the
    last-updated label; the gainers/losers script to the two tables and
    the sentiment label instead of the market table.  Every other element
    of the page, and the ticker container, is as before, whether the
    cycle succeeded or failed. *)
Theorem refreshAll_frame (env : cycle_env) (w : world) :
  same_outside flat_regions (page w) (page (snd (refreshAll env w))) /\
  same_outside split_regions (page w) (page (snd (refreshAll_split env w))).
Proof.
  split.
  - destruct (try_catch_console_error flat_regions (refresh_body env) w
                (quiet_refresh_body env)) as (_ & Hpage & _).
    unfold refreshAll. rewrite Hpage. apply quiet_refresh_body.
  - destruct (try_catch_console_error split_regions (refresh_body_split env) w
                (quiet_refresh_body_split env)) as (_ & Hpage & _).
    unfold refreshAll_split. rewrite Hpage. apply quiet_refresh_body_split.
Qed.

(** ** A cycle on a feed of the other script's shape *)

Lemma load_feeds_ok (env : cycle_env) (headlines : HeadlineFeed) (prices : PriceFeed) :
  headlines_fetch env = Response true (Some headlines) ->
  prices_fetch env = Response true (Some prices) ->
  load_feeds env = inr (headlines, prices).
Proof. intros Hh Hp. unfold load_feeds. rewrite Hh, Hp. reflexivity. Qed.

(** The page after the five headline lists agrees with the page before
    on everything else. *)
Lemma render_headlines_page (env : cycle_env) (headlines : HeadlineFeed) (w : world) :
  same_outside headline_regions (page w) (page (snd (render_headlines env headlines w))).
Proof. apply quiet_render_headlines. Qed.

Lemma refresh_body_steps (env : cycle_env) (headlines : HeadlineFeed)
    (prices : PriceFeed) (w : world) :
  load_feeds env = inr (headlines, prices) ->
  refresh_body env w =
  (inr tt,
   {| page :=
        setLastUpdated (generated_at headlines)
          (renderMarkets (array_or_empty prices)
             (setupTicker (scrollWidth env) (array_or_empty prices)
                (page (snd (render_headlines env headlines w)))));
      console := console w |}).
Proof.
  intros Hload. unfold refresh_body, mbind, eff_bind, bind. rewrite Hload. reflexivity.
Qed.

Lemma refresh_body_split_steps (env : cycle_env) (headlines : HeadlineFeed)
    (prices : PriceFeed) (w : world) :
  load_feeds env = inr (headlines, prices) ->
  refresh_body_split env w =
  bind (renderGainersLosers prices)
       (fun _ => render (setLastUpdated (generated_at headlines)))
       {| page := setupTicker (scrollWidth env) (default [] (feed_prices prices))
                    (page (snd (render_headlines env headlines w)));
          console := console w |}.
Proof.
  intros Hload. unfold refresh_body_split, mbind, eff_bind.
  unfold bind at 1. rewrite Hload. reflexivity.
Qed.

(** The gainers/losers script on a bare-array feed, with both table
    bodies and the sentiment element on the page: reading the full list
    off the array throws after the tables were emptied, so the cycle logs
    a [TypeError], both tables are left without rows, and the sentiment
    and last-updated labels keep their old content although both fetches
    succeeded. *)
Theorem refreshAll_split_on_bare_array (env : cycle_env) (w : world)
    (headlines : HeadlineFeed) (items : list PriceItem)
    (gainersBody losersBody sentimentEl : element) :
  headlines_fetch env = Response true (Some headlines) ->
  prices_fetch env = Response true (Some (PriceArray items)) ->
  getElementById "gainers-body" (page w) = Some gainersBody ->
  getElementById "losers-body" (page w) = Some losersBody ->
  getElementById "sentiment-indicator" (page w) = Some sentimentEl ->
  let w' := snd (refreshAll_split env w) in
  (exists msg : string, console w' = console w ++ [TypeError msg]) /\
  children <$> getElementById "gainers-body" (page w') = Some [] /\
  children <$> getElementById "losers-body" (page w') = Some [] /\
  getElementById "sentiment-indicator" (page w') = Some sentimentEl /\
  getElementById "lastUpdated" (page w') = getElementById "lastUpdated" (page w).
Proof.
  intros Hh Hp Hg Hl Hs w'. subst w'.
  pose proof (load_feeds_ok env headlines (PriceArray items) Hh Hp) as Hload.
  unfold refreshAll_split, try_catch.
  rewrite (refresh_body_split_steps env headlines (PriceArray items) w Hload).
  set (doc2 := setupTicker (scrollWidth env) (default [] (feed_prices (PriceArray items)))
                 (page (snd (render_headlines env headlines w)))).
  assert (Hsame : same_outside flat_regions (page w) doc2).
  { eapply (same_outside_trans headline_regions ["ticker"]);
      [region_incl | region_incl | apply render_headlines_page
       | apply setupTicker_same_outside]. }
  destruct Hsame as [_ Hsame].
  assert (Hg2 : getElementById "gainers-body" doc2 = Some gainersBody)
    by (rewrite Hsame; [exact Hg | unfold flat_regions, headline_regions; set_unfold; intuition discriminate]).
  assert (Hl2 : getElementById "losers-body" doc2 = Some losersBody)
    by (rewrite Hsame; [exact Hl | unfold flat_regions, headline_regions; set_unfold; intuition discriminate]).
  assert (Hs2 : getElementById "sentiment-indicator" doc2 = Some sentimentEl)
    by (rewrite Hsame; [exact Hs | unfold flat_regions, headline_regions; set_unfold; intuition discriminate]).
  assert (Hu2 : getElementById "lastUpdated" doc2 = getElementById "lastUpdated" (page w)).
  { unfold doc2. destruct (setupTicker_same_outside (scrollWidth env)
                             (default [] (feed_prices (PriceArray items)))
                             (page (snd (render_headlines env headlines w)))) as [_ Ht].
    rewrite Ht by (set_unfold; intuition discriminate).
    destruct (render_headlines_page env headlines w) as [_ Hhl].
    apply Hhl. unfold headline_regions; set_unfold; intuition discriminate. }
  unfold bind.
  rewrite (renderGainersLosers_present (PriceArray items)
             {| page := doc2; console := console w |} gainersBody losersBody Hg2 Hl2).
  cbv zeta. simpl page. rewrite Hs2. simpl.
  split; [eexists; reflexivity |].
  lookup_set. rewrite !fill_rows_map. simpl.
  repeat split; try assumption.
Qed.

(** The flat-table script on an object-shaped feed, with the ticker
    anchors and the market table on the page: the feed is not an array, so
    the ticker and the market table are both emptied, and nothing is
    logged. *)
Theorem refreshAll_on_object_feed (env : cycle_env) (w : world)
    (headlines : HeadlineFeed) (prices gainers losers : option (list PriceItem))
    (clientWidth : N) (tick tbody : element) :
  headlines_fetch env = Response true (Some headlines) ->
  prices_fetch env = Response true (Some (PriceObject prices gainers losers)) ->
  ticker_wrap (page w) = Some clientWidth ->
  getElementById "ticker" (page w) = Some tick ->
  getElementById "market-body" (page w) = Some tbody ->
  let w' := snd (refreshAll env w) in
  children <$> getElementById "ticker" (page w') = Some [] /\
  children <$> getElementById "market-body" (page w') = Some [] /\
  console w' = console w.
Proof.
  intros Hh Hp Hwrap Htick Hbody w'. subst w'.
  pose proof (load_feeds_ok env headlines _ Hh Hp) as Hload.
  unfold refreshAll, try_catch.
  rewrite (refresh_body_steps env headlines _ w Hload).
  cbn [fst snd page console array_or_empty].
  set (doc1 := page (snd (render_headlines env headlines w))).
  destruct (render_headlines_page env headlines w) as [Hw1 Hf1]. fold doc1 in Hw1, Hf1.
  assert (Htick1 : getElementById "ticker" doc1 = Some tick)
    by (rewrite Hf1; [exact Htick | unfold headline_regions; set_unfold; intuition discriminate]).
  assert (Hbody1 : getElementById "market-body" doc1 = Some tbody)
    by (rewrite Hf1; [exact Hbody | unfold headline_regions; set_unfold; intuition discriminate]).
  rewrite (setupTicker_present doc1 tick clientWidth (scrollWidth env) [])
    by (congruence || assumption).
  set (doc2 := set_element "ticker" (clear_children tick) doc1).
  assert (Hbody2 : getElementById "market-body" doc2 = Some tbody)
    by (unfold doc2; lookup_set; exact Hbody1).
  rewrite renderMarkets_closed, Hbody2. simpl take. simpl map.
  destruct (setLastUpdated_same_outside (generated_at headlines)
              (set_element "market-body" {| children := []; style := style tbody |} doc2))
    as [_ Hu].
  rewrite !Hu by (set_unfold; intuition discriminate).
  unfold doc2. lookup_set. auto.
Qed.

(** ** The resize and load listeners *)

(** The listeners never throw and never write to the console; they write
    to the ticker track only; when the fetch fails they leave the whole
    page as it is, and when it succeeds they rebuild the ticker from the
    fetched prices as a refresh cycle does. *)
Theorem on_resize_silent (r : fetched PriceFeed) (scrollWidth : nat -> N) (w : world) :
  (fst (on_resize r scrollWidth w) = inr tt /\
   console (snd (on_resize r scrollWidth w)) = console w /\
   same_outside ["ticker"] (page w) (page (snd (on_resize r scrollWidth w))) /\
   (fetch_ok r = false -> snd (on_resize r scrollWidth w) = w) /\
   (forall prices, r = Response true (Some prices) ->
      page (snd (on_resize r scrollWidth w)) =
      setupTicker scrollWidth (array_or_empty prices) (page w))) /\
  (fst (on_resize_split r scrollWidth w) = inr tt /\
   console (snd (on_resize_split r scrollWidth w)) = console w /\
   same_outside ["ticker"] (page w) (page (snd (on_resize_split r scrollWidth w))) /\
   (fetch_ok r = false -> snd (on_resize_split r scrollWidth w) = w) /\
   (forall prices, r = Response true (Some prices) ->
      page (snd (on_resize_split r scrollWidth w)) =
      setupTicker scrollWidth (default [] (feed_prices prices)) (page w))).
Proof.
  unfold on_resize, on_resize_split, try_catch, mbind, eff_bind, bind, fetch_ok.
  destruct w as [doc log].
  destruct r as [|[] [prices|]]; simpl;
    repeat split;
    try reflexivity; try discriminate;
    try (apply same_outside_refl);
    try (apply setupTicker_same_outside);
    try (intros prices' Heq; injection Heq as <-; reflexivity);
    try (intros prices' Heq; discriminate).
Qed.

(** ** More on the relative-age label *)

(** A timestamp in the future, or less than a minute old, reads
    "just now": the elapsed time is clamped at zero. *)
Theorem fmtTimeAgo_future_is_just_now (now ms : Z) (dateStr : string) :
  new_Date dateStr = ValidDate ms ->
  now < ms + 60000 ->
  fmtTimeAgo now dateStr = "just now".
Proof.
  intros Hd Hnow. rewrite (fmtTimeAgo_valid now ms dateStr Hd). unfold age_of_elapsed.
  assert (Hmins : Z.max 0 (now - ms) / 60000 = 0) by (apply Z.div_small; lia).
  rewrite Hmins. reflexivity.
Qed.

(** The number shown in a label is in range and is the elapsed time in
    the label's unit, rounded down: minutes run from 1 to 59, hours from 1
    to 23, days from 1 upwards. *)
Theorem fmtTimeAgo_counts (now ms : Z) (dateStr : string) :
  new_Date dateStr = ValidDate ms ->
  let elapsed := Z.max 0 (now - ms) in
  let out := fmtTimeAgo now dateStr in
  (elapsed < 60000 /\ out = "just now") \/
  (exists n, 1 <= n <= 59 /\ n * 60000 <= elapsed < (n + 1) * 60000 /\
             out = pretty n +:+ "m ago") \/
  (exists n, 1 <= n <= 23 /\ n * 3600000 <= elapsed < (n + 1) * 3600000 /\
             out = pretty n +:+ "h ago") \/
  (exists n, 1 <= n /\ n * 86400000 <= elapsed < (n + 1) * 86400000 /\
             out = pretty n +:+ "d ago").
Proof.
  intros Hd elapsed out. subst out.
  rewrite (fmtTimeAgo_valid now ms dateStr Hd). fold elapsed.
  unfold age_of_elapsed.
  assert (Hpos : 0 <= elapsed) by (unfold elapsed; lia).
  clearbody elapsed.
  pose proof (Z.div_mod elapsed 60000 ltac:(lia)) as Hm.
  pose proof (Z.mod_pos_bound elapsed 60000 ltac:(lia)) as Hmr.
  set (mins := elapsed / 60000) in *.
  pose proof (Z.div_mod mins 60 ltac:(lia)) as Hh.
  pose proof (Z.mod_pos_bound mins 60 ltac:(lia)) as Hhr.
  set (hrs := mins / 60) in *.
  pose proof (Z.div_mod hrs 24 ltac:(lia)) as Hdd.
  pose proof (Z.mod_pos_bound hrs 24 ltac:(lia)) as Hdr.
  set (days := hrs / 24) in *.
  destruct (Z.ltb_spec mins 1); [left; split; [lia | reflexivity] |].
  destruct (Z.ltb_spec mins 60);
    [right; left; exists mins; repeat split; try lia |].
  destruct (Z.ltb_spec hrs 24);
    [right; right; left; exists hrs; repeat split; try lia |].
  right; right; right. exists days. repeat split; lia.
Qed.

(** [fmtTimeAgo] never returns the empty string, whatever the input, so
    the metadata label of a list entry always holds a text node. *)
Theorem fmtTimeAgo_never_empty (now : Z) (dateStr : string) (it : HeadlineItem) :
  fmtTimeAgo now dateStr <> "" /\
  text (fmtTimeAgo now (published_at it) +:+ source_suffix it) =
    [Text (fmtTimeAgo now (published_at it) +:+ source_suffix it)].
Proof.
  assert (Hne : forall s, fmtTimeAgo now s <> "").
  { intros s. unfold fmtTimeAgo.
    repeat match goal with
           | |- context [if ?b then _ else _] => destruct b
           end;
      solve [discriminate | apply append_nonempty_r; discriminate]. }
  split; [apply Hne |].
  unfold text.
  destruct (decide (fmtTimeAgo now (published_at it) +:+ source_suffix it = ""))
    as [Hempty|]; [| reflexivity].
  exfalso. apply (Hne (published_at it)).
  destruct (fmtTimeAgo now (published_at it)); [reflexivity | discriminate].
Qed.

(** ** More on the fetches *)

(** The two fetches are joined all-or-nothing: the cycle gets the feeds
    exactly when both responses are OK and both bodies parse, and then it
    gets exactly those two bodies; otherwise the join fails. *)
Theorem load_feeds_all_or_nothing (env : cycle_env) :
  (forall headlines prices,
     load_feeds env = inr (headlines, prices) <->
     headlines_fetch env = Response true (Some headlines) /\
     prices_fetch env = Response true (Some prices)) /\
  ((exists e : exn, load_feeds env = inl e) <->
   fetch_ok (headlines_fetch env) = false \/ fetch_ok (prices_fetch env) = false).
Proof.
  unfold load_feeds, Promise_all, loadJSON, fetch_ok. split.
  - intros headlines prices.
    destruct (headlines_fetch env) as [|[] [h|]], (prices_fetch env) as [|[] [p|]];
      split; try discriminate; try (intros [Hh Hp]; discriminate);
      try (destruct (second_first env); discriminate).
    + intros Heq. injection Heq as <- <-. auto.
    + intros [Hh Hp]. injection Hh as <-. injection Hp as <-. reflexivity.
  - destruct (headlines_fetch env) as [|[] [h|]], (prices_fetch env) as [|[] [p|]];
      split; eauto; try (intros [e He]; discriminate); intros [Hb|Hb]; discriminate.
Qed.

(** ** The renderers of a cycle do not interfere *)

Lemma renderList_other (now_at : nat -> Z) (id id' : string)
    (items : option (list HeadlineItem)) (doc : document) :
  id' <> id ->
  getElementById id' (renderList now_at id items doc) = getElementById id' doc.
Proof.
  intros Hne. destruct (renderList_same_outside now_at id items doc) as [_ Hf].
  apply Hf. set_unfold. tauto.
Qed.

Lemma setupTicker_other (scrollWidth : nat -> N) (prices : list PriceItem)
    (id' : string) (doc : document) :
  id' <> "ticker" ->
  getElementById id' (setupTicker scrollWidth prices doc) = getElementById id' doc.
Proof.
  intros Hne. destruct (setupTicker_same_outside scrollWidth prices doc) as [_ Hf].
  apply Hf. set_unfold. tauto.
Qed.

Lemma renderMarkets_other (prices : list PriceItem) (id' : string) (doc : document) :
  id' <> "market-body" ->
  getElementById id' (renderMarkets prices doc) = getElementById id' doc.
Proof.
  intros Hne. destruct (renderMarkets_same_outside prices doc) as [_ Hf].
  apply Hf. set_unfold. tauto.
Qed.

Lemma setLastUpdated_other (iso : option string) (id' : string) (doc : document) :
  id' <> "lastUpdated" ->
  getElementById id' (setLastUpdated iso doc) = getElementById id' doc.
Proof.
  intros Hne. destruct (setLastUpdated_same_outside iso doc) as [_ Hf].
  apply Hf. set_unfold. tauto.
Qed.

Lemma renderList_wrap (now_at : nat -> Z) (id : string)
    (items : option (list HeadlineItem)) (doc : document) :
  ticker_wrap (renderList now_at id items doc) = ticker_wrap doc.
Proof. apply renderList_same_outside. Qed.

(** What a renderer leaves in its own region depends on that region (and,
    for the ticker, on the container) only. *)
Lemma renderList_local (now_at : nat -> Z) (id : string)
    (items : option (list HeadlineItem)) (doc doc' : document) :
  getElementById id doc = getElementById id doc' ->
  getElementById id (renderList now_at id items doc) =
  getElementById id (renderList now_at id items doc').
Proof.
  intros Heq. rewrite !renderList_closed, <- Heq.
  destruct (getElementById id doc) eqn:Hel; [| congruence].
  rewrite !getElementById_set_element. reflexivity.
Qed.

Lemma setupTicker_local (scrollWidth : nat -> N) (prices : list PriceItem)
    (doc doc' : document) :
  ticker_wrap doc = ticker_wrap doc' ->
  getElementById "ticker" doc = getElementById "ticker" doc' ->
  getElementById "ticker" (setupTicker scrollWidth prices doc) =
  getElementById "ticker" (setupTicker scrollWidth prices doc').
Proof.
  intros Hw Heq. unfold setupTicker. rewrite <- Hw, <- Heq.
  destruct (ticker_wrap doc); [| assumption].
  destruct (getElementById "ticker" doc) eqn:Hel; [| congruence].
  destruct prices; rewrite !getElementById_set_element; reflexivity.
Qed.

Lemma renderMarkets_local (prices : list PriceItem) (doc doc' : document) :
  getElementById "market-body" doc = getElementById "market-body" doc' ->
  getElementById "market-body" (renderMarkets prices doc) =
  getElementById "market-body" (renderMarkets prices doc').
Proof.
  intros Heq. rewrite !renderMarkets_closed, <- Heq.
  destruct (getElementById "market-body" doc) eqn:Hel; [| congruence].
  rewrite !getElementById_set_element. reflexivity.
Qed.

Lemma setLastUpdated_local (iso : option string) (doc doc' : document) :
  getElementById "lastUpdated" doc = getElementById "lastUpdated" doc' ->
  getElementById "lastUpdated" (setLastUpdated iso doc) =
  getElementById "lastUpdated" (setLastUpdated iso doc').
Proof.
  intros Heq. unfold setLastUpdated. rewrite <- Heq.
  destruct (getElementById "lastUpdated" doc) eqn:Hel; [| congruence].
  destruct iso as [s|]; [| congruence].
  destruct (decide (s = "")); [congruence |].
  rewrite !getElementById_set_element. reflexivity.
Qed.

(** Skip the renderers of other regions when reading one region. *)
Ltac other_regions :=
  repeat first
    [ rewrite renderList_other by discriminate
    | rewrite setupTicker_other by discriminate
    | rewrite renderMarkets_other by discriminate
    | rewrite setLastUpdated_other by discriminate ].

Lemma refreshAll_regions (env : cycle_env) (w : world)
    (headlines : HeadlineFeed) (prices : PriceFeed) :
  headlines_fetch env = Response true (Some headlines) ->
  prices_fetch env = Response true (Some prices) ->
  let doc := page w in
  let doc' := page (snd (refreshAll env w)) in
  let list_of id bucket :=
    getElementById id (renderList (clock env id) id (Some (default [] bucket)) doc) in
  getElementById "x_breaking" doc' = list_of "x_breaking" (x_breaking headlines) /\
  getElementById "breaking" doc' = list_of "breaking" (breaking headlines) /\
  getElementById "day" doc' = list_of "day" (day headlines) /\
  getElementById "week" doc' = list_of "week" (week headlines) /\
  getElementById "month" doc' = list_of "month" (month headlines) /\
  getElementById "ticker" doc' =
    getElementById "ticker" (setupTicker (scrollWidth env) (array_or_empty prices) doc) /\
  getElementById "market-body" doc' =
    getElementById "market-body" (renderMarkets (array_or_empty prices) doc) /\
  getElementById "lastUpdated" doc' =
    getElementById "lastUpdated" (setLastUpdated (generated_at headlines) doc).
Proof.
  intros Hh Hp doc doc' list_of. subst doc' list_of.
  pose proof (load_feeds_ok env headlines prices Hh Hp) as Hload.
  unfold refreshAll, try_catch.
  rewrite (refresh_body_steps env headlines prices w Hload).
  cbn [fst snd page console].
  change (page (snd (render_headlines env headlines w)))
    with (renderList (clock env "month") "month" (Some (default [] (month headlines)))
            (renderList (clock env "week") "week" (Some (default [] (week headlines)))
               (renderList (clock env "day") "day" (Some (default [] (day headlines)))
                  (renderList (clock env "breaking") "breaking"
                     (Some (default [] (breaking headlines)))
                     (renderList (clock env "x_breaking") "x_breaking"
                        (Some (default [] (x_breaking headlines))) doc))))).
  repeat split.
  - other_regions. reflexivity.
  - other_regions. apply renderList_local. other_regions. reflexivity.
  - other_regions. apply renderList_local. other_regions. reflexivity.
  - other_regions. apply renderList_local. other_regions. reflexivity.
  - other_regions. apply renderList_local. other_regions. reflexivity.
  - other_regions. apply setupTicker_local;
      [rewrite !renderList_wrap; reflexivity | other_regions; reflexivity].
  - other_regions. apply renderMarkets_local. other_regions. reflexivity.
  - apply setLastUpdated_local. other_regions. reflexivity.
Qed.

(** After a cycle of the flat-table script whose fetches both succeeded,
    every region shows exactly what its own renderer makes of the old
    page and the new feed: the eight renderers run one after the other
    without disturbing each other's output. *)
Theorem refreshAll_regions_independent (env : cycle_env) (w : world)
    (headlines : HeadlineFeed) (prices : PriceFeed) :
  headlines_fetch env = Response true (Some headlines) ->
  prices_fetch env = Response true (Some prices) ->
  let doc := page w in
  let doc' := page (snd (refreshAll env w)) in
  let list_of id bucket :=
    getElementById id (renderList (clock env id) id (Some (default [] bucket)) doc) in
  getElementById "x_breaking" doc' = list_of "x_breaking" (x_breaking headlines) /\
  getElementById "breaking" doc' = list_of "breaking" (breaking headlines) /\
  getElementById "day" doc' = list_of "day" (day headlines) /\
  getElementById "week" doc' = list_of "week" (week headlines) /\
  getElementById "month" doc' = list_of "month" (month headlines) /\
  getElementById "ticker" doc' =
    getElementById "ticker" (setupTicker (scrollWidth env) (array_or_empty prices) doc) /\
  getElementById "market-body" doc' =
    getElementById "market-body" (renderMarkets (array_or_empty prices) doc) /\
  getElementById "lastUpdated" doc' =
    getElementById "lastUpdated" (setLastUpdated (generated_at headlines) doc).
Proof. apply refreshAll_regions. Qed.

(** ** What survives a cycle *)

Lemma same_shape_refl (doc : document) : same_shape doc doc.
Proof. split; [reflexivity |]. intros id. split; [reflexivity | reflexivity]. Qed.

Lemma same_shape_trans (a b c : document) :
  same_shape a b -> same_shape b c -> same_shape a c.
Proof.
  intros [Hw1 H1] [Hw2 H2]. split; [congruence |]. intros id.
  destruct (H1 id) as [Hs1 Hst1], (H2 id) as [Hs2 Hst2]. split.
  - rewrite Hs2. exact Hs1.
  - intros Hne. rewrite Hst2, Hst1 by assumption. reflexivity.
Qed.

Lemma set_element_same_shape (id : string) (el el' : element) (doc : document) :
  getElementById id doc = Some el ->
  (id <> "ticker" -> style el' = style el) ->
  same_shape doc (set_element id el' doc).
Proof.
  intros Hel Hstyle. split; [reflexivity |]. intros id'.
  destruct (decide (id = id')) as [<-|Hne].
  - rewrite getElementById_set_element, Hel. split; [split; eauto |].
    intros Hnt. simpl. rewrite Hstyle by assumption. reflexivity.
  - rewrite getElementById_set_element_ne by assumption. split; reflexivity.
Qed.

Lemma renderList_same_shape (now_at : nat -> Z) (id : string)
    (items : option (list HeadlineItem)) (doc : document) :
  same_shape doc (renderList now_at id items doc).
Proof.
  rewrite renderList_closed. destruct (getElementById id doc) as [el|] eqn:Hel;
    [| apply same_shape_refl].
  apply (set_element_same_shape id el); [exact Hel | reflexivity].
Qed.

Lemma setupTicker_same_shape (scrollWidth : nat -> N) (prices : list PriceItem)
    (doc : document) :
  same_shape doc (setupTicker scrollWidth prices doc).
Proof.
  destruct (ticker_wrap doc) as [clientWidth|] eqn:Hwrap;
    [destruct (getElementById "ticker" doc) as [tick|] eqn:Htick |].
  - rewrite (setupTicker_present doc tick clientWidth scrollWidth prices Hwrap Htick).
    apply (set_element_same_shape "ticker" tick); [exact Htick | congruence].
  - unfold setupTicker. rewrite Hwrap, Htick. apply same_shape_refl.
  - unfold setupTicker. rewrite Hwrap. apply same_shape_refl.
Qed.

Lemma renderMarkets_same_shape (prices : list PriceItem) (doc : document) :
  same_shape doc (renderMarkets prices doc).
Proof.
  rewrite renderMarkets_closed.
  destruct (getElementById "market-body" doc) as [el|] eqn:Hel; [| apply same_shape_refl].
  apply (set_element_same_shape "market-body" el); [exact Hel | reflexivity].
Qed.

Lemma setLastUpdated_same_shape (iso : option string) (doc : document) :
  same_shape doc (setLastUpdated iso doc).
Proof.
  unfold setLastUpdated.
  destruct (getElementById "lastUpdated" doc) as [el|] eqn:Hel; [| apply same_shape_refl].
  destruct iso as [s|]; [| apply same_shape_refl].
  destruct (decide (s = "")); [apply same_shape_refl |].
  apply (set_element_same_shape "lastUpdated" el); [exact Hel | reflexivity].
Qed.

Lemma keeps_render (R : document -> document -> Prop) (f : document -> document) :
  (forall doc, R doc (f doc)) -> keeps R (render f).
Proof. intros Hf w. apply Hf. Qed.

Lemma keeps_await {A} (R : document -> document -> Prop) (p : exn + A) :
  (forall doc, R doc doc) -> keeps R (await p).
Proof. intros Hrefl w. destruct p; apply Hrefl. Qed.

Lemma keeps_bind {A B} (R : document -> document -> Prop) (m : Eff A) (k : A -> Eff B) :
  (forall a b c, R a b -> R b c -> R a c) ->
  keeps R m -> (forall a, keeps R (k a)) -> keeps R (bind m k).
Proof.
  intros Htrans Hm Hk w. unfold bind. specialize (Hm w).
  destruct (m w) as [[e|a] w1]; simpl in *; [assumption |].
  eapply Htrans; [exact Hm | apply Hk].
Qed.

Lemma keeps_try_catch_log (R : document -> document -> Prop) (m : Eff unit) :
  keeps R m -> keeps R (try_catch m console_error).
Proof.
  intros Hm w. unfold try_catch. specialize (Hm w).
  destruct (m w) as [[e|a] w1]; simpl in *; assumption.
Qed.

Lemma keeps_renderGainersLosers (feed : PriceFeed) :
  keeps same_shape (renderGainersLosers feed).
Proof.
  intros w.
  destruct (getElementById "gainers-body" (page w)) as [g|] eqn:Hg;
    [destruct (getElementById "losers-body" (page w)) as [l|] eqn:Hl |].
  - rewrite (renderGainersLosers_present feed w g l Hg Hl). cbv zeta.
    rewrite !fill_rows_map.
    set (g' := {| children := map (market_row (fun _ => "positive"))
                                (take 15 (default [] (feed_gainers feed)));
                  style := style g |}).
    set (l' := {| children := map (market_row (fun _ => "negative"))
                                (take 15 (default [] (feed_losers feed)));
                  style := style l |}).
    assert (Htables :
      same_shape (page w)
        (set_element "losers-body" l' (set_element "gainers-body" g' (page w)))).
    { apply (same_shape_trans _ (set_element "gainers-body" g' (page w))).
      - apply (set_element_same_shape "gainers-body" g g'); [exact Hg | reflexivity].
      - apply (set_element_same_shape "losers-body" l l'); [| reflexivity].
        lookup_set. exact Hl. }
    destruct (getElementById "sentiment-indicator" (page w)) as [el|] eqn:Hs;
      [destruct (feed_prices feed) as [ps|] |]; simpl; try exact Htables.
    eapply same_shape_trans; [exact Htables |].
    apply (set_element_same_shape "sentiment-indicator" el); [| reflexivity].
    lookup_set. exact Hs.
  - rewrite renderGainersLosers_missing_body_aux by (right; exact Hl).
    apply same_shape_refl.
  - rewrite renderGainersLosers_missing_body_aux by (left; exact Hg).
    apply same_shape_refl.
Qed.

Lemma keeps_render_headlines (env : cycle_env) (headlines : HeadlineFeed) :
  keeps same_shape (render_headlines env headlines).
Proof.
  unfold render_headlines, mbind, eff_bind.
  repeat (apply keeps_bind; [exact same_shape_trans | | intros _]);
    apply keeps_render; intros doc; apply renderList_same_shape.
Qed.

Lemma keeps_refresh_body (env : cycle_env) : keeps same_shape (refresh_body env).
Proof.
  unfold refresh_body, mbind, eff_bind.
  apply keeps_bind; [exact same_shape_trans | apply keeps_await, same_shape_refl |].
  intros [headlines prices].
  apply keeps_bind; [exact same_shape_trans | apply keeps_render_headlines | intros _].
  apply keeps_bind; [exact same_shape_trans | | intros _].
  { apply keeps_render; intros doc; apply setupTicker_same_shape. }
  apply keeps_bind; [exact same_shape_trans | | intros _].
  { apply keeps_render; intros doc; apply renderMarkets_same_shape. }
  apply keeps_render; intros doc; apply setLastUpdated_same_shape.
Qed.

Lemma keeps_refresh_body_split (env : cycle_env) :
  keeps same_shape (refresh_body_split env).
Proof.
  unfold refresh_body_split, mbind, eff_bind.
  apply keeps_bind; [exact same_shape_trans | apply keeps_await, same_shape_refl |].
  intros [headlines prices].
  apply keeps_bind; [exact same_shape_trans | apply keeps_render_headlines | intros _].
  apply keeps_bind; [exact same_shape_trans | | intros _].
  { apply keeps_render; intros doc; apply setupTicker_same_shape. }
  apply keeps_bind; [exact same_shape_trans | apply keeps_renderGainersLosers | intros _].
  apply keeps_render; intros doc; apply setLastUpdated_same_shape.
Qed.

(** A refresh cycle of either script, successful or not, never adds or
    removes a page element, never moves the ticker container, and changes
    no element's inline style except the ticker track's. *)
Theorem refreshAll_keeps_shape (env : cycle_env) (w : world) :
  same_shape (page w) (page (snd (refreshAll env w))) /\
  same_shape (page w) (page (snd (refreshAll_split env w))).
Proof.
  split.
  - exact (keeps_try_catch_log same_shape _ (keeps_refresh_body env) w).
  - exact (keeps_try_catch_log same_shape _ (keeps_refresh_body_split env) w).
Qed.

Lemma renderList_style_local (now_at : nat -> Z) (id : string)
    (items : option (list HeadlineItem)) (doc doc' : document) :
  style <$> getElementById id doc = style <$> getElementById id doc' ->
  getElementById id (renderList now_at id items doc) =
  getElementById id (renderList now_at id items doc').
Proof.
  intros Heq. rewrite !renderList_closed.
  destruct (getElementById id doc) as [el|] eqn:Hel,
           (getElementById id doc') as [el'|] eqn:Hel'; try discriminate.
  - rewrite !getElementById_set_element. simpl in Heq. congruence.
  - congruence.
Qed.

Lemma renderMarkets_style_local (prices : list PriceItem) (doc doc' : document) :
  style <$> getElementById "market-body" doc = style <$> getElementById "market-body" doc' ->
  getElementById "market-body" (renderMarkets prices doc) =
  getElementById "market-body" (renderMarkets prices doc').
Proof.
  intros Heq. rewrite !renderMarkets_closed.
  destruct (getElementById "market-body" doc) as [el|] eqn:Hel,
           (getElementById "market-body" doc') as [el'|] eqn:Hel'; try discriminate.
  - rewrite !getElementById_set_element. simpl in Heq. congruence.
  - congruence.
Qed.

(** No entry survives a successful cycle of the flat-table script:
    whatever an earlier cycle did to the page (it may have failed, or
    rendered any other feed), the headline lists and the market table are
    afterwards exactly what the successful cycle alone would have shown. *)
Theorem refreshAll_shows_latest_feed (env1 env2 : cycle_env) (w : world)
    (headlines : HeadlineFeed) (prices : PriceFeed) (id : string) :
  headlines_fetch env2 = Response true (Some headlines) ->
  prices_fetch env2 = Response true (Some prices) ->
  id ∈ headline_regions ++ ["market-body"] ->
  getElementById id (page (snd (refreshAll env2 (snd (refreshAll env1 w))))) =
  getElementById id (page (snd (refreshAll env2 w))).
Proof.
  intros Hh Hp Hid.
  set (w1 := snd (refreshAll env1 w)).
  pose proof (keeps_try_catch_log same_shape _ (keeps_refresh_body env1) w) as [_ Hshape].
  fold (refreshAll env1) in Hshape. fold w1 in Hshape.
  assert (Hstyle : forall id', id' <> "ticker" ->
            style <$> getElementById id' (page w1) = style <$> getElementById id' (page w))
    by (intros id' Hne; apply Hshape; exact Hne).
  destruct (refreshAll_regions env2 w1 headlines prices Hh Hp)
    as (Ha1 & Ha2 & Ha3 & Ha4 & Ha5 & _ & Ha7 & _).
  destruct (refreshAll_regions env2 w headlines prices Hh Hp)
    as (Hb1 & Hb2 & Hb3 & Hb4 & Hb5 & _ & Hb7 & _).
  unfold headline_regions in Hid. set_unfold in Hid.
  destruct Hid as [-> | [-> | [-> | [-> | [-> | Hid]]]]].
  - rewrite Ha1, Hb1. apply renderList_style_local, Hstyle. discriminate.
  - rewrite Ha2, Hb2. apply renderList_style_local, Hstyle. discriminate.
  - rewrite Ha3, Hb3. apply renderList_style_local, Hstyle. discriminate.
  - rewrite Ha4, Hb4. apply renderList_style_local, Hstyle. discriminate.
  - rewrite Ha5, Hb5. apply renderList_style_local, Hstyle. discriminate.
  - assert (id = "market-body") as -> by tauto.
    rewrite Ha7, Hb7. apply renderMarkets_style_local, Hstyle. discriminate.
Qed.

End Dashboard.

(** ** The script on the sample host *)

(** The tier boundaries, at 0s, 59s, 61s, 3599s, 3601s, 86399s and 86401s
    after the timestamp. *)
Example fmtTimeAgo_boundaries :
  let ago (elapsed_ms : Z) := fmtTimeAgo sample_new_Date elapsed_ms "1970-01-01T00:00:00Z" in
  ago 0 = "just now" /\ ago 59000 = "just now" /\ ago 61000 = "1m ago" /\
  ago 3599000 = "59m ago" /\ ago 3601000 = "1h ago" /\
  ago 86399000 = "23h ago" /\ ago 86401000 = "1d ago".
Proof. vm_compute. repeat split. Qed.

Example toFixed2_samples :
  toFixed2 2 = "2.00" /\ toFixed2 (-1 # 4) = "-0.25" /\
  toFixed2 (1 # 8) = "0.13" /\ toFixed2 (-1 # 1000) = "-0.00" /\
  toFixed2 (12345 # 10) = "1234.50".
Proof. vm_compute. repeat split. Qed.

(** [to_double] and the two operations on known doubles: 0.1 is
    0x1.999999999999ap-4, -1.88 + 10.17 is 0x1.0947ae147ae14p+3, 2^53 + 1
    rounds to 2^53, 2^-1075 rounds to 0, 2^1024 overflows. *)
Example binary64_samples :
  to_double (1 # 10) = S754_finite false 7205759403792794 (-56) /\
  number_add (to_double (-188 # 100)) (to_double (1017 # 100)) =
    S754_finite false 4666855113862676 (-49) /\
  to_double (inject_Z (2 ^ 53 + 1)) = S754_finite false 4503599627370496 1 /\
  to_double (1 # 2 ^ 1075) = pos_zero /\
  to_double (inject_Z (2 ^ 1024)) = S754_infinity false /\
  to_double (double_value (1017 # 100)) = to_double (1017 # 100).
Proof. vm_compute. repeat split. Qed.

(** The doubles of -5, 0.1 and 4.9 add up to exactly 0 in binary64,
    although their arithmetic mean is positive: "Bearish". *)
Example sentiment_rounded_to_zero :
  sentiment_text (avgChange [minus5; tenth; almost5]) =
    "Market Sentiment: Bearish (Avg 24h Change: 0.00%)" /\
  (0 < mean_change [minus5; tenth; almost5])%Q.
Proof. split; [vm_compute; reflexivity | reflexivity]. Qed.

(** Changes -1.0 and +0.5 average to -0.25: "Bearish". *)
Example sentiment_bearish :
  sentiment_text (avgChange [ada; sol]) =
  "Market Sentiment: Bearish (Avg 24h Change: -0.25%)".
Proof. vm_compute. reflexivity. Qed.

(** A cycle with both fetches OK does replace the stale content. *)
Example refreshAll_success_renders :
  let w' := snd (refreshAll sample_new_Date sample_Date_toLocaleString
                   sample_toUpperCase sample_toLocaleString working_env sample_world) in
  children <$> getElementById "breaking" (page w') =
    Some [Elem "li" []
            [Elem "a" [("href", "https://example.org/a"); ("target", "_blank");
                       ("rel", "noopener")] [Text "Markets open"];
             Elem "span" [("class", "meta")] [Text "1m ago • Wire"]]] /\
  length <$> (children <$> getElementById "ticker" (page w')) = Some 4%nat /\
  length <$> (children <$> getElementById "market-body" (page w')) = Some 2%nat /\
  console w' = [].
Proof. vm_compute. repeat split. Qed.

(** Reading [prices.prices] off a bare array throws inside the cycle of
    the gainers/losers script; the cycle logs it and completes. *)
Example refreshAll_split_on_array :
  let r := refreshAll_split sample_new_Date sample_Date_toLocaleString
             sample_toUpperCase sample_toLocaleString working_env sample_world in
  fst r = inr tt /\
  console (snd r) = [TypeError "prices.prices is undefined"].
Proof. vm_compute. repeat split. Qed.

(** ** The theorems at the sample page *)

(** Clones 300px wide in a 500px container: four copies, 1200 >= 1000. *)
Lemma setupTicker_minimal_clones_witness :
  exists n : nat,
    children <$> getElementById "ticker"
                   (setupTicker sample_toUpperCase sample_toLocaleString
                      (fun _ => 300%N) [btc; eth] sample_page) =
      Some (replicate n (build_run sample_toUpperCase sample_toLocaleString [btc; eth])) /\
    (1000 <= N.of_nat n * 300)%N /\
    (forall m : nat, (1000 <= N.of_nat m * 300)%N -> (n <= m)%nat).
Proof.
  destruct (setupTicker_minimal_clones sample_toUpperCase sample_toLocaleString
              sample_page sample_tick 500 300 [btc; eth])
    as (n & _ & Htick & Hbound & Hmin);
    [discriminate | reflexivity | reflexivity | lia |].
  exists n. rewrite Htick. split; [reflexivity |]. split; [exact Hbound | exact Hmin].
Defined.

Lemma fmtTimeAgo_tiers_witness :
  fmtTimeAgo sample_new_Date 1704067261000 "2024-01-01T00:00:00Z" = "1m ago".
Proof.
  destruct (fmtTimeAgo_tiers sample_new_Date 1704067261000 1704067200000
              "2024-01-01T00:00:00Z") as [Hlabel _]; [reflexivity |].
  rewrite Hlabel. reflexivity.
Defined.

Lemma fmtTimeAgo_invalid_date_witness :
  fmtTimeAgo sample_new_Date 1704067261000 "not a date" = "NaNd ago".
Proof.
  apply (fmtTimeAgo_invalid_date sample_new_Date 1704067261000 "not a date").
  reflexivity.
Defined.

(** Changes +1.0 and +3.0 average to 2.00: "Bullish". *)
Lemma sentiment_label_witness :
  exists w' : world,
    renderGainersLosers sample_toUpperCase sample_toLocaleString
      (PriceObject (Some [btc; eth]) None None) sample_world = (inr tt, w') /\
    children <$> getElementById "sentiment-indicator" (page w') =
      Some [Text "Market Sentiment: Bullish (Avg 24h Change: 2.00%)"].
Proof.
  destruct (sentiment_label sample_toUpperCase sample_toLocaleString
              (PriceObject (Some [btc; eth]) None None) [btc; eth] sample_world
              (mkElement [] ∅) (mkElement [] ∅) (mkElement [] ∅))
    as (_ & _ & _ & _ & w' & Hrun & Hlabel);
    [reflexivity | discriminate | reflexivity | reflexivity | reflexivity
    | reflexivity |].
  exists w'. split; [exact Hrun |]. rewrite Hlabel. reflexivity.
Defined.

(** C3 as stated does not hold.  The doubles of -1.88 and 10.17 have an
    arithmetic mean just above 4.145, which prints as 4.15 with two
    decimals; the script adds them to the double of 8.29, halves it to the
    double just below 4.145, and publishes 4.14. *)
Lemma sentiment_label_not_exact_mean :
  ~ (forall (toUpperCase : string -> string) (toLocaleString : Q -> string)
            (feed : PriceFeed) (ps : list PriceItem) (w : world)
            (gainersBody losersBody sentimentEl : element),
       feed_prices feed = Some ps ->
       ps <> [] ->
       getElementById "gainers-body" (page w) = Some gainersBody ->
       getElementById "losers-body" (page w) = Some losersBody ->
       getElementById "sentiment-indicator" (page w) = Some sentimentEl ->
       let mean := mean_change ps in
       let sentiment := if Qle_bool mean 0 then "Bearish" else "Bullish" in
       exists w' : world,
         renderGainersLosers toUpperCase toLocaleString feed w = (inr tt, w') /\
         getElementById "sentiment-indicator" (page w') =
           Some {| children :=
                     [Text ("Market Sentiment: " +:+ sentiment +:+ " (Avg 24h Change: "
                              +:+ toFixed2 mean +:+ "%)")];
                   style := style sentimentEl |}).
Proof.
  intros Hclaim.
  destruct (Hclaim sample_toUpperCase sample_toLocaleString
              (PriceObject (Some [dipped; rallied]) None None) [dipped; rallied]
              sample_world (mkElement [] ∅) (mkElement [] ∅) (mkElement [] ∅))
    as (w' & Hrun & Hlabel);
    [reflexivity | discriminate | reflexivity | reflexivity | reflexivity |].
  assert (Hcode : children <$> getElementById "sentiment-indicator"
                    (page (snd (renderGainersLosers sample_toUpperCase
                                  sample_toLocaleString
                                  (PriceObject (Some [dipped; rallied]) None None)
                                  sample_world))) =
                  Some [Text "Market Sentiment: Bullish (Avg 24h Change: 4.14%)"])
    by (vm_compute; reflexivity).
  rewrite Hrun in Hcode. simpl snd in Hcode. rewrite Hlabel in Hcode.
  vm_compute in Hcode. discriminate Hcode.
Qed.

Lemma sentiment_empty_list_witness :
  exists w' : world,
    renderGainersLosers sample_toUpperCase sample_toLocaleString
      (PriceObject (Some []) None None) sample_world = (inr tt, w') /\
    children <$> getElementById "sentiment-indicator" (page w') =
      Some [Text "Market Sentiment: Bearish (Avg 24h Change: NaN%)"].
Proof.
  destruct (sentiment_empty_list sample_toUpperCase sample_toLocaleString
              (PriceObject (Some []) None None) sample_world
              (mkElement [] ∅) (mkElement [] ∅) (mkElement [] ∅))
    as (_ & _ & _ & w' & Hrun & Hlabel);
    [reflexivity | reflexivity | reflexivity | reflexivity |].
  exists w'. split; [exact Hrun |]. rewrite Hlabel. reflexivity.
Defined.

Lemma refreshAll_failure_keeps_page_witness :
  refreshAll sample_new_Date sample_Date_toLocaleString sample_toUpperCase
    sample_toLocaleString failing_env sample_world =
  (inr tt, {| page := sample_page; console := [LoadError "data/headlines.json"] |}).
Proof.
  destruct (refreshAll_failure_keeps_page sample_new_Date sample_Date_toLocaleString
              sample_toUpperCase sample_toLocaleString failing_env sample_world)
    as (e & Hload & Hrun & _); [left; reflexivity |].
  rewrite Hrun. vm_compute in Hload. injection Hload as <-. reflexivity.
Defined.

Lemma setupTicker_empty_clears_witness :
  children <$> getElementById "ticker"
                 (setupTicker sample_toUpperCase sample_toLocaleString
                    (fun _ => 300%N) [] sample_page) = Some [] /\
  getElementById "breaking"
    (setupTicker sample_toUpperCase sample_toLocaleString (fun _ => 300%N) [] sample_page) =
  getElementById "breaking" sample_page.
Proof.
  destruct (setupTicker_empty_clears sample_toUpperCase sample_toLocaleString
              sample_page sample_tick 500 (fun _ => 300%N))
    as (Htick & Hframe & _); [reflexivity | reflexivity |].
  split.
  - rewrite Htick. reflexivity.
  - apply Hframe. discriminate.
Defined.

(** C8 as stated does not hold: with both anchors present, an empty price
    list is not a no-op, the stale ticker content of the sample page is
    removed. *)
Lemma setupTicker_empty_not_noop :
  ~ (forall (toUpperCase : string -> string) (toLocaleString : Q -> string)
            (scrollWidth : nat -> N) (doc : document),
       is_Some (ticker_wrap doc) ->
       is_Some (getElementById "ticker" doc) ->
       setupTicker toUpperCase toLocaleString scrollWidth [] doc = doc).
Proof.
  intros Hnoop.
  specialize (Hnoop sample_toUpperCase sample_toLocaleString (fun _ => 300%N) sample_page).
  assert (Hsame : children <$> getElementById "ticker"
                    (setupTicker sample_toUpperCase sample_toLocaleString
                       (fun _ => 300%N) [] sample_page) =
                  children <$> getElementById "ticker" sample_page).
  { rewrite Hnoop; [reflexivity | eexists; reflexivity | eexists; reflexivity]. }
  vm_compute in Hsame. discriminate Hsame.
Qed.

(** ** The further theorems at the sample page *)

Lemma setupTicker_frame_witness :
  setupTicker sample_toUpperCase sample_toLocaleString (fun _ => 300%N) [btc; eth] bare_page =
  bare_page.
Proof.
  destruct (setupTicker_frame sample_toUpperCase sample_toLocaleString
              (fun _ => 300%N) [btc; eth] bare_page) as [_ Hnoop].
  apply Hnoop. left. reflexivity.
Defined.

(** A first clone of 700px and a second of unknown width, counted as the
    500px container: two copies. *)
Lemma setupTicker_track_contents_witness :
  exists j : nat,
    length <$> (children <$> getElementById "ticker"
                  (setupTicker sample_toUpperCase sample_toLocaleString
                     uneven_widths [btc; eth] sample_page)) = Some j /\
    (1 <= j <= 1000)%nat.
Proof.
  destruct (setupTicker_track_contents sample_toUpperCase sample_toLocaleString
              sample_page sample_tick 500 uneven_widths [btc; eth])
    as (j & Hkids & Hj & _); [discriminate | reflexivity | reflexivity |].
  exists j. rewrite Hkids. simpl. rewrite length_replicate.
  split; [reflexivity | exact Hj].
Defined.

Lemma ticker_duration_bounds_witness :
  exists d : N,
    (style <$> getElementById "ticker"
       (setupTicker sample_toUpperCase sample_toLocaleString (fun _ => 300%N)
          [btc; eth] sample_page)) ≫= (fun st => st !! "--ticker-duration") =
      Some (pretty d +:+ "s") /\
    (20 <= d)%N.
Proof.
  destruct (ticker_duration_bounds sample_toUpperCase sample_toLocaleString
              sample_page sample_tick 500 (fun _ => 300%N) [btc; eth])
    as (d & Hstyle & Hd & _); [discriminate | reflexivity | reflexivity |].
  exists d. rewrite Hstyle. simpl. rewrite lookup_insert_eq.
  split; [reflexivity | exact Hd].
Defined.

Lemma renderList_commute_witness :
  renderList sample_new_Date (fun _ => 1704067261000) "breaking" (Some [sample_headline])
    (renderList sample_new_Date (fun _ => 1704067261000) "lastUpdated" None sample_page) =
  renderList sample_new_Date (fun _ => 1704067261000) "lastUpdated" None
    (renderList sample_new_Date (fun _ => 1704067261000) "breaking" (Some [sample_headline])
       sample_page).
Proof.
  apply (renderList_commute sample_new_Date). discriminate.
Defined.

(** A "gainer" whose change is -1.00% is still classed positive. *)
Lemma renderGainersLosers_tables_witness :
  children <$> getElementById "gainers-body"
    (page (snd (renderGainersLosers sample_toUpperCase sample_toLocaleString
                  (PriceObject (Some [btc]) (Some [ada]) None) sample_world))) =
  Some [Elem "tr" []
          [Elem "td" [] [Text "ADA"]; Elem "td" [] [Text "$0.50"];
           Elem "td" [("class", "positive")] [Text "-1.00%"]]].
Proof.
  destruct (renderGainersLosers_tables sample_toUpperCase sample_toLocaleString
              (PriceObject (Some [btc]) (Some [ada]) None) sample_world
              (mkElement [] ∅) (mkElement [] ∅)) as (Hg & _ & _);
    [reflexivity | reflexivity |].
  rewrite Hg. reflexivity.
Defined.

Lemma renderGainersLosers_missing_body_witness :
  renderGainersLosers sample_toUpperCase sample_toLocaleString
    (PriceObject (Some [btc]) (Some [ada]) None) (mkWorld bare_page []) =
  (inr tt, mkWorld bare_page []).
Proof.
  apply (renderGainersLosers_missing_body sample_toUpperCase sample_toLocaleString).
  left. reflexivity.
Defined.

Lemma renderGainersLosers_throws_iff_witness :
  getElementById "sentiment-indicator"
    (page (snd (renderGainersLosers sample_toUpperCase sample_toLocaleString
                  (PriceArray [btc; eth]) sample_world))) =
  getElementById "sentiment-indicator" sample_page.
Proof.
  destruct (renderGainersLosers_throws_iff sample_toUpperCase sample_toLocaleString
              (PriceArray [btc; eth]) sample_world) as [_ Hkeep].
  apply Hkeep. eexists. reflexivity.
Defined.

Lemma refreshAll_split_on_bare_array_witness :
  exists msg : string,
    console (snd (refreshAll_split sample_new_Date sample_Date_toLocaleString
                    sample_toUpperCase sample_toLocaleString working_env sample_world)) =
    [TypeError msg].
Proof.
  destruct (refreshAll_split_on_bare_array sample_new_Date sample_Date_toLocaleString
              sample_toUpperCase sample_toLocaleString working_env sample_world
              sample_headlines [btc; eth] (mkElement [] ∅) (mkElement [] ∅) (mkElement [] ∅))
    as ([msg Hlog] & _);
    [reflexivity | reflexivity | reflexivity | reflexivity | reflexivity |].
  exists msg. exact Hlog.
Defined.

Lemma refreshAll_on_object_feed_witness :
  children <$> getElementById "ticker"
    (page (snd (refreshAll sample_new_Date sample_Date_toLocaleString
                  sample_toUpperCase sample_toLocaleString object_env sample_world))) =
  Some [].
Proof.
  destruct (refreshAll_on_object_feed sample_new_Date sample_Date_toLocaleString
              sample_toUpperCase sample_toLocaleString object_env sample_world
              sample_headlines (Some [btc; eth]) (Some [ada]) None 500 sample_tick
              (mkElement [] ∅)) as (Htick & _);
    [reflexivity | reflexivity | reflexivity | reflexivity | reflexivity |].
  exact Htick.
Defined.

Lemma on_resize_silent_witness :
  snd (on_resize sample_toUpperCase sample_toLocaleString (Response false None)
         (fun _ => 300%N) sample_world) = sample_world.
Proof.
  destruct (on_resize_silent sample_toUpperCase sample_toLocaleString
              (Response false None) (fun _ => 300%N) sample_world)
    as ((_ & _ & _ & Hfail & _) & _).
  apply Hfail. reflexivity.
Defined.

(** A timestamp one hour in the future. *)
Lemma fmtTimeAgo_future_is_just_now_witness :
  fmtTimeAgo sample_new_Date 1704063600000 "2024-01-01T00:00:00Z" = "just now".
Proof.
  apply (fmtTimeAgo_future_is_just_now sample_new_Date 1704063600000 1704067200000);
    [reflexivity | lia].
Defined.

Lemma fmtTimeAgo_counts_witness :
  (61000 < 60000 /\
   fmtTimeAgo sample_new_Date 1704067261000 "2024-01-01T00:00:00Z" = "just now") \/
  (exists n, 1 <= n <= 59 /\ n * 60000 <= 61000 < (n + 1) * 60000 /\
     fmtTimeAgo sample_new_Date 1704067261000 "2024-01-01T00:00:00Z" = pretty n +:+ "m ago") \/
  (exists n, 1 <= n <= 23 /\ n * 3600000 <= 61000 < (n + 1) * 3600000 /\
     fmtTimeAgo sample_new_Date 1704067261000 "2024-01-01T00:00:00Z" = pretty n +:+ "h ago") \/
  (exists n, 1 <= n /\ n * 86400000 <= 61000 < (n + 1) * 86400000 /\
     fmtTimeAgo sample_new_Date 1704067261000 "2024-01-01T00:00:00Z" = pretty n +:+ "d ago").
Proof.
  apply (fmtTimeAgo_counts sample_new_Date 1704067261000 1704067200000
           "2024-01-01T00:00:00Z").
  reflexivity.
Defined.

Lemma refreshAll_regions_independent_witness :
  getElementById "market-body"
    (page (snd (refreshAll sample_new_Date sample_Date_toLocaleString
                  sample_toUpperCase sample_toLocaleString working_env sample_world))) =
  getElementById "market-body"
    (renderMarkets sample_toUpperCase sample_toLocaleString [btc; eth] sample_page).
Proof.
  destruct (refreshAll_regions_independent sample_new_Date sample_Date_toLocaleString
              sample_toUpperCase sample_toLocaleString working_env sample_world
              sample_headlines (PriceArray [btc; eth]))
    as (_ & _ & _ & _ & _ & _ & Hmarket & _); [reflexivity | reflexivity |].
  exact Hmarket.
Defined.

(** A failed cycle, or a cycle on another feed, before the working one. *)
Lemma refreshAll_shows_latest_feed_witness :
  getElementById "breaking"
    (page (snd (refreshAll sample_new_Date sample_Date_toLocaleString
                  sample_toUpperCase sample_toLocaleString working_env
                  (snd (refreshAll sample_new_Date sample_Date_toLocaleString
                          sample_toUpperCase sample_toLocaleString object_env
                          sample_world))))) =
  getElementById "breaking"
    (page (snd (refreshAll sample_new_Date sample_Date_toLocaleString
                  sample_toUpperCase sample_toLocaleString working_env sample_world))).
Proof.
  apply (refreshAll_shows_latest_feed sample_new_Date sample_Date_toLocaleString
           sample_toUpperCase sample_toLocaleString object_env working_env sample_world
           sample_headlines (PriceArray [btc; eth]));
    [reflexivity | reflexivity |].
  unfold headline_regions. set_unfold. tauto.
Defined.
